(** * X12 997 acknowledgment pre-processor: a shallow embedding

    Source: [example_scripts/process_x12_997_files.js].

    The script receives an ordered sequence of file records, classifies each
    one ([parse997File]) and returns one of three batch dispositions.  The
    development below embeds, in order:

    - the JavaScript string primitives the script calls ([Js]);
    - the four code tables, as finite maps, with JavaScript property lookup;
    - the delimiter resolver [parseDelimiters] and [safeSplit];
    - the walker ([flushTransaction] and the body of the [for] loop), written
      in a small log/exception monad over a store of segment-error objects;
    - the classifier [parse997File] with its [try]/[catch];
    - the module-level batch loop and the final decision.

    Strings are sequences of 8-bit code units ([string] of the Standard
    Library); X12 interchanges are ASCII. *)

From Stdlib Require Import String Ascii ZArith List Lia Bool.
From Stdlib Require Import DecimalString DecimalNat.
From stdpp Require Import base option list strings gmap.

Import ListNotations.

Local Open Scope string_scope.
Local Open Scope list_scope.

(** ** JavaScript string primitives *)

Module Js.

Definition chr (n : nat) : string := String (ascii_of_nat n) EmptyString.

Definition LF : string := chr 10.
Definition CR : string := chr 13.
Definition DQUOTE : string := chr 34.

(** [s[i]]: a one-character string, or [undefined] ([None]) out of range. *)
Definition index (s : string) (i : nat) : option string :=
  match String.get i s with
  | Some c => Some (String c EmptyString)
  | None => None
  end.

(** [s.startsWith(p)] *)
Fixpoint startsWith (p s : string) : bool :=
  match p with
  | EmptyString => true
  | String a p' =>
      match s with
      | EmptyString => false
      | String b s' => if Ascii.eqb a b then startsWith p' s' else false
      end
  end.

Fixpoint indexOfFrom (needle s : string) (pos : Z) : Z :=
  if startsWith needle s then pos
  else match s with
       | EmptyString => (-1)%Z
       | String _ s' => indexOfFrom needle s' (pos + 1)%Z
       end.

(** [s.indexOf(needle)]: position of the first occurrence, or [-1]. *)
Definition indexOf (s needle : string) : Z := indexOfFrom needle s 0%Z.

(** [s.substr(start, len)] *)
Definition substr (s : string) (start len : Z) : string :=
  let size := Z.of_nat (String.length s) in
  let st := if (start <? 0)%Z then Z.max (size + start) 0 else Z.min start size in
  let n := Z.min (Z.max len 0) (size - st) in
  String.substring (Z.to_nat st) (Z.to_nat n) s.

(** White space and line terminators among the 8-bit code units:
    TAB, LF, VT, FF, CR, SP and NBSP. *)
Definition isWhiteSpace (c : ascii) : bool :=
  let n := nat_of_ascii c in
  ((n =? 9) || (n =? 10) || (n =? 11) || (n =? 12) || (n =? 13)
   || (n =? 32) || (n =? 160))%nat.

Fixpoint trimStart (s : string) : string :=
  match s with
  | EmptyString => EmptyString
  | String c s' => if isWhiteSpace c then trimStart s' else s
  end.

Fixpoint trimEnd (s : string) : string :=
  match s with
  | EmptyString => EmptyString
  | String c s' =>
      match trimEnd s' with
      | EmptyString => if isWhiteSpace c then EmptyString else String c EmptyString
      | t => String c t
      end
  end.

(** [s.trim()] *)
Definition trim (s : string) : string := trimEnd (trimStart s).

(** [s.split(sep)] for a string separator: the pieces between the leftmost,
    non-overlapping occurrences of [sep].  [skip] counts the characters of
    a matched separator still to be consumed, [cur] is the piece being
    built, reversed. *)
Fixpoint splitAux (sep : string) (skip : nat) (cur : string) (s : string)
  : list string :=
  match s with
  | EmptyString => [String.rev cur]
  | String c s' =>
      match skip with
      | S k => splitAux sep k cur s'
      | O =>
          if startsWith sep s
          then String.rev cur :: splitAux sep (String.length sep - 1) EmptyString s'
          else splitAux sep O (String c cur) s'
      end
  end.

Fixpoint chars (s : string) : list string :=
  match s with
  | EmptyString => []
  | String c s' => String c EmptyString :: chars s'
  end.

(** [s.split(sep)] where [sep] is a string or [undefined]: with
    [undefined] the result is the one-element array [[s]]; with the empty
    separator the string is split into its code units. *)
Definition split (s : string) (sep : option string) : list string :=
  match sep with
  | None => [s]
  | Some EmptyString => chars s
  | Some sp => splitAux sp O EmptyString s
  end.

Definition upperChar (c : ascii) : ascii :=
  let n := nat_of_ascii c in
  if ((97 <=? n) && (n <=? 122))%nat then ascii_of_nat (n - 32) else c.

(** [s.toUpperCase()] on the ASCII letters; other code units are kept.  (No
    code unit outside [a-z] has an upper-case form that is an ASCII
    letter, so comparisons of the result with an ASCII literal are
    unaffected.) *)
Fixpoint toUpperCase (s : string) : string :=
  match s with
  | EmptyString => EmptyString
  | String c s' => String (upperChar c) (toUpperCase s')
  end.

(** [x || d] for [x] a string or [undefined]: the empty string is falsy. *)
Definition orElse (x : option string) (d : string) : string :=
  match x with
  | None | Some EmptyString => d
  | Some s => s
  end.

(** String conversion inside a template literal or [+=]. *)
Definition show (x : option string) : string :=
  match x with
  | None => "undefined"
  | Some s => s
  end.

End Js.


(** ** Data model *)

(** A file record of the batch.  A property that is absent reads as
    [undefined] ([None]). *)
Record File := mkFile {
  file_name : option string;
  body : option string
}.

(** The value a lookup in one of the code tables can yield: one of the
    table's own descriptions, or, for a key that names a member of
    [Object.prototype], that inherited member (a function, or the prototype
    object itself for [__proto__]); all of these are truthy, none is a
    string. *)
Inductive JsVal :=
| VStr (s : string)
| VProto (name : string).

Record ElementError := mkElementError {
  pos : string;
  error : JsVal;
  value : string
}.

Record SegmentError := mkSegmentError {
  segId : string;
  segPos : string;
  loopId : string;
  segError : JsVal;
  elementErrors : list ElementError
}.

Record Delimiters := mkDelimiters {
  elementSep : option string;
  subElementSep : option string;
  segmentTerminator : option string
}.

(** The classification of one file; [status] is absent on the two
    [{ is997: false, file }] results. *)
Record Result := mkResult {
  is997 : bool;
  file : File;
  status : option string
}.

(** What the script sends to its two sinks, in order. *)
Inductive Event :=
| LogInfo (message : string)
| LogError (message : string)
| PublishDataTags (tags : list (string * string)).

Inductive Disposition :=
| ReturnSkipped (files : list File)
| ReturnError (files : list File)
| ReturnSuccess (files : list File).

#[global] Instance File_eq_dec : EqDecision File.
Proof. solve_decision. Defined.

#[global] Instance JsVal_eq_dec : EqDecision JsVal.
Proof. solve_decision. Defined.

(** ** Code tables *)

Definition AK3_ERROR_ENUM : gmap string string :=
  list_to_map
    [ ("1", "Unrecognized segment ID");
      ("2", "Unexpected segment");
      ("3", "Mandatory segment missing");
      ("4", "Loop occurs over maximum times");
      ("5", "Segment exceeds maximum use");
      ("6", "Segment not in defined transaction set");
      ("7", "Segment not in proper sequence");
      ("8", "Segment has data element errors") ].

Definition AK4_ERROR_ENUM : gmap string string :=
  list_to_map
    [ ("1", "Mandatory data element missing");
      ("2", "Conditional required data element missing");
      ("3", "Too many data elements");
      ("4", "Data element too short");
      ("5", "Data element too long");
      ("6", "Invalid character in data element");
      ("7", "Invalid code value");
      ("8", "Invalid date");
      ("9", "Invalid time");
      ("10", "Exclusion condition violated");
      ("12", "Too many repetitions");
      ("13", "Too many components");
      ("16", "Composite data structure contains excess trailing delimiters") ].

Definition AK5_CODE_ENUM : gmap string string :=
  list_to_map
    [ ("A", "Accepted");
      ("E", "Accepted but errors were noted");
      ("M", "Rejected, message authentication code (MAC) failed");
      ("R", "Rejected");
      ("W", "Rejected, assurance failed validity tests");
      ("X", "Rejected, content after decryption could not be analyzed") ].

Definition AK9_CODE_ENUM : gmap string string :=
  list_to_map
    [ ("A", "Accepted");
      ("E", "Accepted but errors were noted");
      ("P", "Partially accepted");
      ("R", "Rejected") ].

(** The tables are object literals, so a lookup that misses the table's own
    keys continues on [Object.prototype]. *)
Definition objectPrototypeKeys : list string :=
  [ "constructor"; "__defineGetter__"; "__defineSetter__"; "hasOwnProperty";
    "__lookupGetter__"; "__lookupSetter__"; "isPrototypeOf";
    "propertyIsEnumerable"; "toString"; "valueOf"; "__proto__";
    "toLocaleString" ].

(** [table[key]] *)
Definition getProp (table : gmap string string) (key : string) : option JsVal :=
  match table !! key with
  | Some d => Some (VStr d)
  | None =>
      if bool_decide (key ∈ objectPrototypeKeys) then Some (VProto key) else None
  end.

(** [x || d], for [x] the result of a table lookup. *)
Definition valOr (x : option JsVal) (d : string) : JsVal :=
  match x with
  | None | Some (VStr EmptyString) => VStr d
  | Some v => v
  end.

(** String conversion of a description inside a template literal.  The
    inherited members print as Node prints them. *)
Definition showVal (v : JsVal) : string :=
  match v with
  | VStr s => s
  | VProto k =>
      if String.eqb k "__proto__" then "[object Object]"
      else "function "
           +:+ (if String.eqb k "constructor" then "Object" else k)
           +:+ "() { [native code] }"
  end.

(** The four description expressions of the walker:
    [AK3_ERROR_ENUM[errorCode] || `Error code ${errorCode}`] in the AK3
    branch, the same over [AK4_ERROR_ENUM] in the AK4 branch,
    [AK5_CODE_ENUM[ackCode] || ackCode] in [flushTransaction] and
    [AK9_CODE_ENUM[ak901] || ak901] in the AK9 branch. *)
Definition segmentErrorDesc (errorCode : string) : JsVal :=
  valOr (getProp AK3_ERROR_ENUM errorCode) ("Error code " +:+ errorCode).

Definition elementErrorDesc (errorCode : string) : JsVal :=
  valOr (getProp AK4_ERROR_ENUM errorCode) ("Error code " +:+ errorCode).

Definition transactionAckDesc (ackCode : string) : JsVal :=
  valOr (getProp AK5_CODE_ENUM ackCode) ackCode.

Definition groupAckDesc (ak901 : string) : JsVal :=
  valOr (getProp AK9_CODE_ENUM ak901) ak901.

(** ** Delimiters and field access *)

(** [a += b] where [a] may be [undefined] and [b] is a string. *)
Definition appendTo (a : option string) (b : string) : option string :=
  Some (Js.show a +:+ b).

Definition parseDelimiters (edi : string) : Delimiters :=
  let elementSep := Js.index edi 3 in
  let subElementSep := Js.index edi 104 in
  let segmentTerminator := Js.index edi 105 in
  let segmentTerminator :=
    match Js.index edi 106 with
    | Some c =>
        if String.eqb c Js.LF || String.eqb c Js.CR
        then appendTo segmentTerminator c
        else segmentTerminator
    | None => segmentTerminator
    end in
  mkDelimiters elementSep subElementSep segmentTerminator.

(** [safeSplit] returns one field when an index is given and the whole
    array otherwise. *)
Inductive SplitResult :=
| Field (s : string)
| Fields (l : list string).

Definition safeSplit (str : option string) (sep : option string)
    (index : option nat) : SplitResult :=
  let splitSegment :=
    match str with
    | None | Some EmptyString => []
    | Some s => Js.split s sep
    end in
  match index with
  | Some i => Field (Js.orElse (splitSegment !! i) EmptyString)
  | None => Fields splitSegment
  end.

Definition field (r : SplitResult) : string :=
  match r with Field s => s | Fields _ => EmptyString end.

Definition fields (r : SplitResult) : list string :=
  match r with Field _ => [] | Fields l => l end.

(** ** Logging and exceptions

    A computation emits events, in order, and either returns a value or
    throws; the events emitted before a throw are kept (the sinks are
    append-only). *)

Inductive Outcome (A : Type) :=
| Ok (a : A)
| Throw (msg : string).

Arguments Ok {A} a.
Arguments Throw {A} msg.

Definition M (A : Type) : Type := (list Event * Outcome A)%type.

Definition ret {A} (a : A) : M A := ([], Ok a).

Definition throw {A} (msg : string) : M A := ([], Throw msg).

Definition bind {A B} (m : M A) (k : A -> M B) : M B :=
  match m with
  | (e1, Ok a) => let '(e2, o) := k a in (e1 ++ e2, o)
  | (e1, Throw msg) => (e1, Throw msg)
  end.

(** [try { m } catch (err) { h(err.message) }] *)
Definition tryCatch {A} (m : M A) (h : string -> M A) : M A :=
  match m with
  | (e1, Ok a) => (e1, Ok a)
  | (e1, Throw msg) => let '(e2, o) := h msg in (e1 ++ e2, o)
  end.

Notation "x <~ m ;; k" := (bind m (fun x => k))
  (at level 100, m at next level, right associativity).
Notation "m ;; k" := (bind m (fun _ => k))
  (at level 100, right associativity).

Definition userLog_info (message : string) : M unit := ([LogInfo message], Ok tt).
Definition userLog_error (message : string) : M unit := ([LogError message], Ok tt).
Definition publishDataTags (tags : list (string * string)) : M unit :=
  ([PublishDataTags tags], Ok tt).

(** ** The walker *)

(** The variables the loop closes over.  Segment-error objects live in
    [heap] and are referred to by their position in it:
    [currentSegmentErrors] and [currentSegment] hold references, so that an
    element error pushed through [currentSegment] is seen through the
    array. *)
Record WalkState := mkWalkState {
  currentDocType : string;
  currentControlNumber : string;
  currentSegmentErrors : list nat;
  currentSegment : option nat;
  overallStatus : string;
  ak102 : option string;
  heap : list SegmentError
}.

Definition initialState : WalkState :=
  mkWalkState EmptyString EmptyString [] None "A" None [].

(** The text appended for one element error. *)
Definition elementLine (elemErr : ElementError) : string :=
  Js.LF +:+ "    Element " +:+ pos elemErr +:+ ": " +:+ showVal (error elemErr)
  +:+ (match value elemErr with
       | EmptyString => EmptyString
       | v => " [value: " +:+ Js.DQUOTE +:+ v +:+ Js.DQUOTE +:+ "]"
       end).

(** The text appended for one segment error, before its element errors. *)
Definition segmentLine (segErr : SegmentError) : string :=
  let loopInfo :=
    match loopId segErr with
    | EmptyString => EmptyString
    | l => " (loop " +:+ l +:+ ")"
    end in
  "  Segment " +:+ segId segErr +:+ " at position " +:+ segPos segErr
  +:+ loopInfo +:+ ": " +:+ showVal (segError segErr).

(** [currentSegmentErrors.forEach((segErr, idx) => ...)], from index [idx]
    on; [len] is [currentSegmentErrors.length].  Every reference held by
    the array is allocated (see [state_ok]); a dangling one would be
    skipped. *)
Fixpoint forEachSegErr (hp : list SegmentError) (len idx : nat)
    (refs : list nat) (message : string) : string :=
  match refs with
  | [] => message
  | r :: rest =>
      let message :=
        match hp !! r with
        | None => message
        | Some segErr =>
            let message := message +:+ segmentLine segErr in
            let message :=
              if (0 <? length (elementErrors segErr))%nat
              then fold_left (fun m elemErr => m +:+ elementLine elemErr)
                     (elementErrors segErr) message
              else message in
            if (idx <? len - 1)%nat then message +:+ Js.LF else message
        end in
      forEachSegErr hp len (S idx) rest message
  end.

Definition flushMessage (st : WalkState) (ackCode : string) : string :=
  let ackDesc := transactionAckDesc ackCode in
  let message :=
    "Transaction " +:+ currentDocType st +:+ " #" +:+ currentControlNumber st
    +:+ ": " +:+ showVal ackDesc in
  if (0 <? length (currentSegmentErrors st))%nat
  then forEachSegErr (heap st) (length (currentSegmentErrors st)) 0
         (currentSegmentErrors st) (message +:+ Js.LF)
  else message.

Definition flushTransaction (st : WalkState) (ackCode : string) : M WalkState :=
  match currentDocType st with
  | EmptyString => ret st
  | _ =>
      let message := flushMessage st ackCode in
      (if String.eqb ackCode "R"
       then userLog_error message
       else userLog_info message) ;;
      ret (mkWalkState EmptyString EmptyString [] None
             (overallStatus st) (ak102 st) (heap st))
  end.

(** [elements[i] || d] *)
Definition elementOr (elements : list string) (i : nat) (d : string) : string :=
  Js.orElse (elements !! i) d.

(** [currentSegment.elementErrors.push(e)] on the object behind reference [r]. *)
Definition pushElementError (hp : list SegmentError) (r : nat) (e : ElementError)
    : list SegmentError :=
  alter (fun segErr =>
           mkSegmentError (segId segErr) (segPos segErr) (loopId segErr)
             (segError segErr) (elementErrors segErr ++ [e])) r hp.

Section Walker.

(** The classifier's [file] and the element separator it resolved. *)
Variable sourceFile : File.
Variable elemSep : option string.

(** The body of [for (const seg of rawSegments)]. *)
Definition step (st : WalkState) (seg : string) : M WalkState :=
  if Js.startsWith "AK1" seg then
    let elements := fields (safeSplit (Some seg) elemSep None) in
    let ak102' := elementOr elements 2 EmptyString in
    publishDataTags [("997 Acked Group Control Number", ak102')] ;;
    ret (mkWalkState (currentDocType st) (currentControlNumber st)
           (currentSegmentErrors st) (currentSegment st) (overallStatus st)
           (Some ak102') (heap st))
  else if Js.startsWith "AK2" seg then
    let elements := fields (safeSplit (Some seg) elemSep None) in
    ret (mkWalkState (elementOr elements 1 EmptyString)
           (elementOr elements 2 EmptyString) [] None
           (overallStatus st) (ak102 st) (heap st))
  else if Js.startsWith "AK3" seg then
    let elements := fields (safeSplit (Some seg) elemSep None) in
    let segId := elementOr elements 1 EmptyString in
    let segPos := elementOr elements 2 EmptyString in
    let loopId := elementOr elements 3 EmptyString in
    let errorCode := elementOr elements 4 EmptyString in
    let errorDesc := segmentErrorDesc errorCode in
    let r := length (heap st) in
    ret (mkWalkState (currentDocType st) (currentControlNumber st)
           (currentSegmentErrors st ++ [r]) (Some r) (overallStatus st)
           (ak102 st)
           (heap st ++ [mkSegmentError segId segPos loopId errorDesc []]))
  else if Js.startsWith "AK4" seg then
    let elements := fields (safeSplit (Some seg) elemSep None) in
    let elementPos := elementOr elements 1 EmptyString in
    let elementRef := elementOr elements 2 EmptyString in
    let errorCode := elementOr elements 3 EmptyString in
    let badValue := elementOr elements 4 EmptyString in
    let errorDesc := elementErrorDesc errorCode in
    match currentSegment st with
    | Some r =>
        ret (mkWalkState (currentDocType st) (currentControlNumber st)
               (currentSegmentErrors st) (currentSegment st) (overallStatus st)
               (ak102 st)
               (pushElementError (heap st) r
                  (mkElementError (Js.orElse (Some elementRef) elementPos)
                     errorDesc badValue)))
    | None => ret st
    end
  else if Js.startsWith "AK5" seg then
    let elements := fields (safeSplit (Some seg) elemSep None) in
    let ackCode := elementOr elements 1 EmptyString in
    flushTransaction st ackCode
  else if Js.startsWith "AK9" seg then
    let elements := fields (safeSplit (Some seg) elemSep None) in
    let ak901 := elementOr elements 1 EmptyString in
    let ackDesc := groupAckDesc ak901 in
    let received := elementOr elements 3 "0" in
    let accepted := elementOr elements 4 "0" in
    userLog_info ("Functional Group Result for " +:+ Js.show (ak102 st) +:+ ": "
                  +:+ showVal ackDesc +:+ " - " +:+ accepted +:+ "/" +:+ received
                  +:+ " transactions accepted") ;;
    if negb (String.eqb (Js.toUpperCase ak901) "A") && String.eqb (overallStatus st) "A"
    then
      userLog_error ("997 acknowledging Group Control Number " +:+ Js.show (ak102 st)
                     +:+ " Not Accepted (AK901=" +:+ ak901 +:+ ") in file "
                     +:+ Js.show (file_name sourceFile)) ;;
      ret (mkWalkState (currentDocType st) (currentControlNumber st)
             (currentSegmentErrors st) (currentSegment st) ak901
             (ak102 st) (heap st))
    else
      userLog_info ("997 acknowledging Group Control Number " +:+ Js.show (ak102 st)
                    +:+ " " +:+ showVal ackDesc +:+ " (AK901=" +:+ ak901
                    +:+ ") in file " +:+ Js.show (file_name sourceFile) +:+ ".") ;;
      ret st
  else ret st.

(** The [for] loop over [rawSegments]. *)
Fixpoint walk (segs : list string) (st : WalkState) : M WalkState :=
  match segs with
  | [] => ret st
  | seg :: rest => st' <~ step st seg ;; walk rest st'
  end.

End Walker.

(** ** The classifier *)

Definition notA997 (sourceFile : File) : Result := mkResult false sourceFile None.

(** The delimiters as [parse997File] resolves them: [parseDelimiters]
    applied to the window [body.substr(isaStart, 106)]. *)
Definition isaWindow (content : string) : string :=
  Js.substr content (Js.indexOf content "ISA") 106.

Definition resolveDelimiters (content : string) : Delimiters :=
  parseDelimiters (isaWindow content).

(** [body.split(segmentTerminator).filter(s => s.trim().length > 0)] *)
Definition tokenize (content : string) (terminator : option string) : list string :=
  List.filter (fun s => (0 <? String.length (Js.trim s))%nat)
    (Js.split content terminator).

(** The message of the [TypeError] that [body.indexOf] raises when the
    record has no [body]. *)
Definition noBodyMessage : string :=
  "Cannot read properties of undefined (reading 'indexOf')".

(** The [try] block of [parse997File]. *)
Definition parse997Try (sourceFile : File) : M Result :=
  match body sourceFile with
  | None => throw noBodyMessage
  | Some content =>
      let isaStart := Js.indexOf content "ISA" in
      if (isaStart =? -1)%Z then ret (notA997 sourceFile)
      else
        let isaSeg := Js.substr content isaStart 106 in
        let d := parseDelimiters isaSeg in
        let rawSegments := tokenize content (segmentTerminator d) in
        let st01 :=
          field (safeSplit (List.find (Js.startsWith "ST") rawSegments)
                   (elementSep d) (Some 1)) in
        if negb (String.eqb st01 "997") then ret (notA997 sourceFile)
        else
          let isa13 := field (safeSplit (Some isaSeg) (elementSep d) (Some 13)) in
          let gs06 :=
            field (safeSplit (List.find (Js.startsWith "GS") rawSegments)
                     (elementSep d) (Some 6)) in
          publishDataTags
            [ ("997 Ack File Interchange Control Number", isa13);
              ("997 Ack File Group Control Number", gs06) ] ;;
          st <~ walk sourceFile (elementSep d) rawSegments initialState ;;
          ret (mkResult true sourceFile (Some (overallStatus st)))
  end.

Definition parse997File (sourceFile : File) : M Result :=
  tryCatch (parse997Try sourceFile)
    (fun message =>
       userLog_error ("Error processing file " +:+ Js.show (file_name sourceFile)
                      +:+ ": " +:+ message) ;;
       ret (notA997 sourceFile)).

(** ** The batch *)

Record Batch := mkBatch {
  payload : list File;
  accepted : list File;
  rejected : list File
}.

(** One iteration of [for (const sourceFile of sourceFiles)].  [result.file]
    is the record itself, an object, hence truthy. *)
Definition collect (acc : Batch) (sourceFile : File) : M Batch :=
  result <~ parse997File sourceFile ;;
  if is997 result then
    if bool_decide (status result = Some "A")
    then ret (mkBatch (payload acc ++ [file result])
                (accepted acc ++ [file result]) (rejected acc))
    else ret (mkBatch (payload acc ++ [file result])
                (accepted acc) (rejected acc ++ [file result]))
  else ret acc.

Fixpoint collectAll (sourceFiles : list File) (acc : Batch) : M Batch :=
  match sourceFiles with
  | [] => ret acc
  | sourceFile :: rest => acc' <~ collect acc sourceFile ;; collectAll rest acc'
  end.

Definition decideBatch (b : Batch) : Disposition :=
  if (length (payload b) =? 0)%nat then ReturnSkipped []
  else if (0 <? length (rejected b))%nat then ReturnError (rejected b)
  else ReturnSuccess (accepted b).

(** The whole script. *)
Definition run (sourceFiles : list File) : M Disposition :=
  b <~ collectAll sourceFiles (mkBatch [] [] []) ;;
  ret (decideBatch b).

Definition filesOf (d : Disposition) : list File :=
  match d with
  | ReturnSkipped fs | ReturnError fs | ReturnSuccess fs => fs
  end.

(** ** Vocabulary of the properties *)

(** The classification [parse997File] returns for a file, when it returns. *)
Definition classify (sourceFile : File) : option Result :=
  match parse997File sourceFile with
  | (_, Ok r) => Some r
  | (_, Throw _) => None
  end.

(** The file is classified as a 997. *)
Definition recognized (sourceFile : File) : bool :=
  match classify sourceFile with
  | Some r => is997 r
  | None => false
  end.

(** The file is classified as a 997 whose status is the accepted code. *)
Definition acceptedFile (sourceFile : File) : bool :=
  match classify sourceFile with
  | Some r => is997 r && bool_decide (status r = Some "A")
  | None => false
  end.

(** The file is classified as a 997 whose status is another code. *)
Definition rejectedFile (sourceFile : File) : bool :=
  match classify sourceFile with
  | Some r => is997 r && negb (bool_decide (status r = Some "A"))
  | None => false
  end.

(** The disposition the script ends with; [None] if it threw. *)
Definition dispositionOf (sourceFiles : list File) : option Disposition :=
  match run sourceFiles with
  | (_, Ok d) => Some d
  | (_, Throw _) => None
  end.

(** The first data element of a segment, as the AK5 and AK9 branches read
    it: [elements[1] || '']. *)
Definition firstElement (sep : option string) (seg : string) : string :=
  elementOr (fields (safeSplit (Some seg) sep None)) 1 EmptyString.

(** The AK9 codes of a segment sequence, in order. *)
Definition ak9Codes (sep : option string) (segs : list string) : list string :=
  map (firstElement sep) (List.filter (Js.startsWith "AK9") segs).

(** The acceptance test of the latch: [ak901.toUpperCase() === 'A']. *)
Definition ak9Accepted (ak901 : string) : bool :=
  String.eqb (Js.toUpperCase ak901) "A".

(** First-error-wins over a sequence of codes. *)
Definition latched (codes : list string) : string :=
  match List.find (fun c => negb (ak9Accepted c)) codes with
  | Some c => c
  | None => "A"
  end.

(** The transaction-scoped variables emptied, the others kept. *)
Definition resetTransaction (st : WalkState) : WalkState :=
  mkWalkState EmptyString EmptyString [] None
    (overallStatus st) (ak102 st) (heap st).

(** Every reference the walker holds is allocated, and the current segment
    error, when there is one, is the last one appended to the array. *)
Definition state_ok (st : WalkState) : Prop :=
  Forall (fun r => r < length (heap st)) (currentSegmentErrors st)
  /\ match currentSegment st with
     | None => True
     | Some r => last (currentSegmentErrors st) = Some r
     end.

(** The segment errors accumulated for the open transaction. *)
Definition accumulated (st : WalkState) : list SegmentError :=
  omap (fun r => heap st !! r) (currentSegmentErrors st).

(** One segment error with its element errors, as a block of lines. *)
Definition renderSegmentError (segErr : SegmentError) : string :=
  fold_right String.append EmptyString
    (segmentLine segErr :: map elementLine (elementErrors segErr)).

Fixpoint joinLines (blocks : list string) : string :=
  match blocks with
  | [] => EmptyString
  | [b] => b
  | b :: rest => b +:+ Js.LF +:+ joinLines rest
  end.

(** The consolidated message of a transaction: the header with the
    description of the ack code, then one block per segment error. *)
Definition transactionReport (docType controlNumber : string) (ackDesc : JsVal)
    (errs : list SegmentError) : string :=
  "Transaction " +:+ docType +:+ " #" +:+ controlNumber +:+ ": " +:+ showVal ackDesc
  +:+ match errs with
      | [] => EmptyString
      | _ => Js.LF +:+ joinLines (map renderSegmentError errs)
      end.

(** The element separator, the segments and the transaction set identifier
    [st01] that [parse997File] derives from a content. *)
Definition sepOf (content : string) : option string :=
  elementSep (resolveDelimiters content).

Definition segmentsOf (content : string) : list string :=
  tokenize content (segmentTerminator (resolveDelimiters content)).

Definition st01Of (content : string) : string :=
  field (safeSplit (List.find (Js.startsWith "ST") (segmentsOf content))
           (sepOf content) (Some 1)).

(** The tags published once the gate is passed. *)
Definition envelopeTags (content : string) : Event :=
  PublishDataTags
    [ ("997 Ack File Interchange Control Number",
       field (safeSplit (Some (isaWindow content)) (sepOf content) (Some 13)));
      ("997 Ack File Group Control Number",
       field (safeSplit (List.find (Js.startsWith "GS") (segmentsOf content))
                (sepOf content) (Some 6))) ].

(** The content has an occurrence of [needle]. *)
Definition occursIn (needle content : string) : Prop :=
  exists pre post, content = pre +:+ needle +:+ post.

(** The entry logged by the [catch] clause. *)
Definition failureEntry (sourceFile : File) (message : string) : Event :=
  LogError ("Error processing file " +:+ Js.show (file_name sourceFile)
            +:+ ": " +:+ message).

(** The contribution of one file to a filtered list. *)
Definition one (b : bool) (f : File) : list File := if b then [f] else [].

(** The reading of the fallback rule that gives one text to the four
    tables: every code absent from [table] is described as
    ["Error code {code}"]. *)
Definition fallbackIsErrorCode (table : gmap string string)
    (describe : string -> JsVal) : Prop :=
  forall code, table !! code = None ->
    describe code = VStr ("Error code " +:+ code).

(** ** Sample interchanges *)

Definition isaHeader : string :=
  "ISA*00*          *00*          *ZZ*SENDERID       *ZZ*RECEIVERID     *210101*1200*U*00401*000000001*0*P*:~".

(** A rejected acknowledgment with one segment error and one element error. *)
Definition rejectedBody : string :=
  isaHeader +:+ "GS*FA*S*R*20210101*1200*77*X*004010~ST*997*0001~AK1*PO*55~AK2*850*0007~AK3*N1*4*L1*1~AK4*2*66*1*XX~AK5*R~AK9*R*1*1*0~SE*8*0001~GE*1*77~IEA*1*000000001~".

(** An accepted acknowledgment. *)
Definition acceptedBody : string :=
  isaHeader +:+ "GS*FA*S*R*20210101*1200*77*X*004010~ST*997*0001~AK1*PO*55~AK2*850*0007~AK5*A~AK9*A*1*1*1~SE*6*0001~GE*1*77~IEA*1*000000001~".

(** An acknowledgment whose AK9 code is a lower-case [a]. *)
Definition lowerCaseBody : string :=
  isaHeader +:+ "GS*FA*S*R*20210101*1200*77*X*004010~ST*997*0001~AK1*PO*55~AK9*a*1*1*1~SE*4*0001~GE*1*77~IEA*1*000000001~".

(** An accepted acknowledgment whose segments end in [~] and a line feed. *)
Definition lineFeedBody : string :=
  isaHeader +:+ Js.LF +:+ "GS*FA*S*R*20210101*1200*77*X*004010~" +:+ Js.LF
  +:+ "ST*997*0001~" +:+ Js.LF +:+ "AK1*PO*55~" +:+ Js.LF
  +:+ "AK9*A*1*1*1~" +:+ Js.LF +:+ "SE*4*0001~" +:+ Js.LF
  +:+ "GE*1*77~" +:+ Js.LF +:+ "IEA*1*000000001~" +:+ Js.LF.

(** An invoice, not an acknowledgment. *)
Definition invoiceBody : string :=
  isaHeader +:+ "GS*IN*S*R*20210101*1200*78*X*004010~ST*810*0001~SE*2*0001~GE*1*78~IEA*1*000000001~".

Definition fileOf (name content : string) : File := mkFile (Some name) (Some content).

(** A record without a [body]. *)
Definition bodilessFile : File := mkFile (Some "broken.edi") None.

(** The first segments of the group of [rejectedBody], up to the element
    error, and the walker's state after them. *)
Definition openSegments : list string :=
  ["AK1*PO*55"; "AK2*850*0007"; "AK3*N1*4*L1*1"; "AK4*2*66*1*XX"].

Definition openState : WalkState :=
  mkWalkState "850" "0007" [0] (Some 0) "A" (Some "55")
    [mkSegmentError "N1" "4" "L1" (VStr "Unrecognized segment ID")
       [mkElementError "66" (VStr "Mandatory data element missing") "XX"]].

(** ** Vocabulary of the further properties *)

(** The segment starts with one of the six tags the walker acts on. *)
Definition isAckSegment (seg : string) : bool :=
  Js.startsWith "AK1" seg || Js.startsWith "AK2" seg || Js.startsWith "AK3" seg
  || Js.startsWith "AK4" seg || Js.startsWith "AK5" seg || Js.startsWith "AK9" seg.

Definition isPublish (e : Event) : bool :=
  match e with
  | PublishDataTags _ => true
  | _ => false
  end.

(** The tag the AK1 branch publishes for a segment. *)
Definition ackedGroupTag (sep : option string) (seg : string) : Event :=
  PublishDataTags
    [ ("997 Acked Group Control Number",
       elementOr (fields (safeSplit (Some seg) sep None)) 2 EmptyString) ].

(** The error entry of the AK9 branch, recognized by its first words. *)
Definition isGroupError (e : Event) : bool :=
  match e with
  | LogError m => Js.startsWith "997 acknowledging Group Control Number " m
  | _ => false
  end.

(** The object the AK3 branch creates for a segment. *)
Definition segmentErrorOf (sep : option string) (seg : string) : SegmentError :=
  let elements := fields (safeSplit (Some seg) sep None) in
  mkSegmentError (elementOr elements 1 EmptyString) (elementOr elements 2 EmptyString)
    (elementOr elements 3 EmptyString)
    (segmentErrorDesc (elementOr elements 4 EmptyString)) [].

(** The object the AK4 branch creates for a segment. *)
Definition elementErrorOf (sep : option string) (seg : string) : ElementError :=
  let elements := fields (safeSplit (Some seg) sep None) in
  mkElementError
    (Js.orElse (Some (elementOr elements 2 EmptyString)) (elementOr elements 1 EmptyString))
    (elementErrorDesc (elementOr elements 3 EmptyString))
    (elementOr elements 4 EmptyString).

(** A segment error with one more element error at the end. *)
Definition withElementError (segErr : SegmentError) (e : ElementError) : SegmentError :=
  mkSegmentError (segId segErr) (segPos segErr) (loopId segErr) (segError segErr)
    (elementErrors segErr ++ [e]).

(** The two dispositions are of the same kind. *)
Definition sameKind (d d' : Disposition) : bool :=
  match d, d' with
  | ReturnSkipped _, ReturnSkipped _ => true
  | ReturnError _, ReturnError _ => true
  | ReturnSuccess _, ReturnSuccess _ => true
  | _, _ => false
  end.

(** The character does not occur in the string. *)
Definition freeOf (c : ascii) (s : string) : Prop :=
  ~ In c (list_ascii_of_string s).

(** [pieces.join(sep)] *)
Fixpoint joinWith (sep : string) (pieces : list string) : string :=
  match pieces with
  | [] => EmptyString
  | [p] => p
  | p :: rest => p +:+ sep +:+ joinWith sep rest
  end.

(** The walker's state after [AK1*PO*55] and [AK2*850*0007], and after
    [AK3*N1*4*L1*1] as well. *)
Definition groupState : WalkState :=
  mkWalkState "850" "0007" [] None "A" (Some "55") [].

Definition segmentState : WalkState :=
  mkWalkState "850" "0007" [0] (Some 0) "A" (Some "55")
    [mkSegmentError "N1" "4" "L1" (VStr "Unrecognized segment ID") []].

(** ** The post-processor [sequentially_name_files]

    Source: [examples/post_processor/sequentially_name_files/processor.js].
    A file object is the finite map of its own properties; the properties
    the script and its tests use ([type], [body], [file_name]) hold
    strings. *)

Module SequentialNames.

(** [`${n}`] for a natural number: its decimal digits. *)
Definition showNat (n : nat) : string := NilEmpty.string_of_uint (Nat.to_uint n).

(** [`file_${index + 1}.txt`] *)
Definition newName (index : nat) : string :=
  "file_" +:+ showNat (index + 1) +:+ ".txt".

(** The iteratee: log when a truthy [file_name] is overwritten, then copy
    the object with [file_name] set. *)
Definition rename (file : gmap string string) (index : nat)
    : M (gmap string string) :=
  let newFileName := newName index in
  match file !! "file_name" with
  | Some (String _ _ as old) =>
      userLog_info ("Overwriting file_name " +:+ old +:+ " to " +:+ newFileName)
  | _ => ret tt
  end ;;
  ret (<["file_name" := newFileName]> file).

(** [lodash.map(destinationFiles, iteratee)], from index [index] on. *)
Fixpoint mapFrom (index : nat) (destinationFiles : list (gmap string string))
    : M (list (gmap string string)) :=
  match destinationFiles with
  | [] => ret []
  | file :: rest =>
      file' <~ rename file index ;;
      rest' <~ mapFrom (S index) rest ;;
      ret (file' :: rest')
  end.

(** The script: its value is the array [files]. *)
Definition processor (destinationFiles : list (gmap string string))
    : M (list (gmap string string)) :=
  mapFrom 0 destinationFiles.

(** The entry logged for the file at an index, if any. *)
Definition overwriteEntry (index : nat) (file : gmap string string) : list Event :=
  match file !! "file_name" with
  | Some (String _ _ as old) =>
      [LogInfo ("Overwriting file_name " +:+ old +:+ " to " +:+ newName index)]
  | _ => []
  end.

(** The files of the script's tests. *)
Definition testFiles : list (gmap string string) :=
  [ {[ "type" := "file"; "body" := "test body"; "file_name" := "test.txt" ]};
    {[ "type" := "file"; "body" := "test body 2" ]} ].

End SequentialNames.

(** ** The test double of the log sink

    Source: [utils/userLog.js].  The object holds three arrays of messages,
    one per severity; each method pushes onto its own array. *)

Module UserLog.

Record Messages := mkMessages {
  info : list string;
  warning : list string;
  error : list string
}.

(** [new UserLog()] *)
Definition new : Messages := mkMessages [] [] [].

Inductive Call :=
| CallInfo (message : string)
| CallWarning (message : string)
| CallError (message : string).

(** One method call on the object. *)
Definition call (log : Messages) (c : Call) : Messages :=
  match c with
  | CallInfo m => mkMessages (info log ++ [m]) (warning log) (error log)
  | CallWarning m => mkMessages (info log) (warning log ++ [m]) (error log)
  | CallError m => mkMessages (info log) (warning log) (error log ++ [m])
  end.

(** [getMessages()] after a sequence of calls. *)
Definition getMessages (log : Messages) (calls : list Call) : Messages :=
  fold_left call calls log.

(** The message of a call, at each severity. *)
Definition infoOf (c : Call) : option string :=
  match c with CallInfo m => Some m | _ => None end.

Definition warningOf (c : Call) : option string :=
  match c with CallWarning m => Some m | _ => None end.

Definition errorOf (c : Call) : option string :=
  match c with CallError m => Some m | _ => None end.

End UserLog.

(** ** The processor [array_to_files]

    Source: the script at the head of [example_scripts/array_to_files.js].
    [JSON.parse], [JSON.stringify], [Array.isArray], [typeof] and [uuid]
    belong to the host; they are parameters of the embedding. *)

Module ArrayToFiles.

(** [s.lastIndexOf(needle)]: the position of the last occurrence, or [-1]. *)
Fixpoint lastIndexOfFrom (needle s : string) (pos found : Z) : Z :=
  let found' := if Js.startsWith needle s then pos else found in
  match s with
  | EmptyString => found'
  | String _ s' => lastIndexOfFrom needle s' (pos + 1)%Z found'
  end.

Definition lastIndexOf (s needle : string) : Z :=
  lastIndexOfFrom needle s 0%Z (-1)%Z.

(** [s.slice(start, end)]; [end] may be omitted. *)
Definition slice (s : string) (start : Z) (end_ : option Z) : string :=
  let len := Z.of_nat (String.length s) in
  let norm := fun k => if (k <? 0)%Z then Z.max (len + k) 0 else Z.min k len in
  let from := norm start in
  let to := match end_ with Some e => norm e | None => len end in
  String.substring (Z.to_nat from) (Z.to_nat (Z.max (to - from) 0)) s.

(** The name given to entry [idx] of the file named [name]. *)
Definition newFileName (name : string) (idx : nat) : string :=
  let extIdx := lastIndexOf name "." in
  let baseName := if negb (extIdx =? -1)%Z then slice name 0 (Some extIdx) else name in
  let ext := if negb (extIdx =? -1)%Z then slice name extIdx None else ".json" in
  baseName +:+ "_" +:+ SequentialNames.showNat (idx + 1) +:+ ext.

Inductive Entry :=
| Info (message : string)
| Warning (message : string).

(** The object built for one entry. *)
Record NewFile := mkNewFile {
  new_uuid : string;
  new_type : string;
  new_file_name : string;
  new_format : string;
  new_mime_type : string;
  new_body : string
}.

Inductive Returned :=
| Skipped (files : list NewFile)
| Success (files : list NewFile).

(** A computation logs entries, draws identifiers from the generator (the
    state counts the draws) and returns or throws. *)
Definition Comp (A : Type) : Type := nat -> (list Entry * Outcome (A * nat))%type.

Definition unit_ {A} (a : A) : Comp A := fun n => ([], Ok (a, n)).

Definition raise {A} (msg : string) : Comp A := fun _ => ([], Throw msg).

Definition log (e : Entry) : Comp unit := fun n => ([e], Ok (tt, n)).

Definition andThen {A B} (m : Comp A) (k : A -> Comp B) : Comp B :=
  fun n =>
    match m n with
    | (e1, Ok (a, n')) => let '(e2, o) := k a n' in (e1 ++ e2, o)
    | (e1, Throw msg) => (e1, Throw msg)
    end.

Section Host.

(** Parsed JSON values. *)
Variable Json : Type.
(** [JSON.parse(body)]; [None] when it throws. *)
Variable JSON_parse : option string -> option Json.
(** The elements of a value for which [Array.isArray] holds. *)
Variable arrayElements : Json -> option (list Json).
(** [typeof obj === 'object' && obj !== null] *)
Variable isObject : Json -> bool.
Variable JSON_stringify : Json -> string.
(** The identifier answered by the [n]-th call of [uuid()]. *)
Variable uuid : nat -> string.

Definition nextUuid : Comp string := fun n => ([], Ok (uuid n, S n)).

(** The callback of [data.map]. *)
Definition splitEntry (f : File) (obj : Json) (idx : nat) : Comp (option NewFile) :=
  if negb (isObject obj) then
    andThen (log (Warning ("Skipping non-object entry at index "
                           +:+ SequentialNames.showNat idx +:+ " in file "
                           +:+ Js.show (file_name f))))
      (fun _ => unit_ None)
  else
    match file_name f with
    | None => raise "Cannot read properties of undefined (reading 'lastIndexOf')"
    | Some name =>
        andThen nextUuid (fun id =>
          unit_ (Some (mkNewFile id "file" (newFileName name idx) "json"
                         "application/json" (JSON_stringify obj))))
    end.

(** [data.map(callback)], from index [idx] on. *)
Fixpoint mapEntries (f : File) (idx : nat) (data : list Json)
    : Comp (list (option NewFile)) :=
  match data with
  | [] => unit_ []
  | obj :: rest =>
      andThen (splitEntry f obj idx) (fun x =>
        andThen (mapEntries f (S idx) rest) (fun xs => unit_ (x :: xs)))
  end.

(** The callback of [destinationFiles.flatMap]. *)
Definition splitFile (f : File) : Comp (list NewFile) :=
  match JSON_parse (body f) with
  | None =>
      andThen (log (Warning ("Skipping file " +:+ Js.show (file_name f)
                             +:+ ": invalid JSON.")))
        (fun _ => unit_ [])
  | Some data =>
      match arrayElements data with
      | None =>
          andThen (log (Info ("Skipping file " +:+ Js.show (file_name f)
                              +:+ ": root is not an array.")))
            (fun _ => unit_ [])
      | Some entries =>
          andThen (mapEntries f 0 entries) (fun xs => unit_ (omap id xs))
      end
  end.

Fixpoint flatMapFiles (destinationFiles : list File) : Comp (list NewFile) :=
  match destinationFiles with
  | [] => unit_ []
  | f :: rest =>
      andThen (splitFile f) (fun xs =>
        andThen (flatMapFiles rest) (fun ys => unit_ (xs ++ ys)))
  end.

(** The whole script. *)
Definition script (destinationFiles : list File) : Comp Returned :=
  andThen (flatMapFiles destinationFiles) (fun processedFiles =>
    if (length processedFiles =? 0)%nat then
      andThen (log (Info "No valid array files found to split. Returning skipped."))
        (fun _ => unit_ (Skipped []))
    else
      andThen (log (Info ("Split into "
                          +:+ SequentialNames.showNat (length processedFiles)
                          +:+ " files.")))
        (fun _ => unit_ (Success processedFiles))).

(** The objects among the entries from position [idx] on, each with its
    position. *)
Definition objectsFrom (idx : nat) (data : list Json) : list (nat * Json) :=
  List.filter (fun p => isObject (snd p)) (imap (fun i obj => (idx + i, obj)) data).

(** The entries of a file that become files: the objects of its root
    array, each with its position in the array. *)
Definition objectsOf (f : File) : list (nat * Json) :=
  match JSON_parse (body f) with
  | None => []
  | Some data =>
      match arrayElements data with
      | None => []
      | Some entries => objectsFrom 0 entries
      end
  end.

(** The files expected for the objects of a file named [name], when the
    generator has been drawn [n] times. *)
Definition filesFor (name : string) (objs : list (nat * Json)) (n : nat)
    : list NewFile :=
  imap (fun k p =>
          mkNewFile (uuid (n + k)) "file" (newFileName name (fst p)) "json"
            "application/json" (JSON_stringify (snd p)))
    objs.

End Host.

(** A host for the samples: it parses one body, an array of an object, a
    number and an object, and numbers its identifiers. *)
Inductive SampleJson :=
| SampleArray
| SampleObject (text : string)
| SampleNumber (text : string).

Definition sampleParse (b : option string) : option SampleJson :=
  match b with
  | Some text =>
      if String.eqb text "[{},1,{}]"
      then Some SampleArray
      else None
  | None => None
  end.

Definition sampleElements (v : SampleJson) : option (list SampleJson) :=
  match v with
  | SampleArray => Some [SampleObject "{}"; SampleNumber "1"; SampleObject "{}"]
  | _ => None
  end.

Definition sampleIsObject (v : SampleJson) : bool :=
  match v with SampleNumber _ => false | _ => true end.

Definition sampleStringify (v : SampleJson) : string :=
  match v with
  | SampleArray => "[{},1,{}]"
  | SampleObject text | SampleNumber text => text
  end.

Definition sampleUuid (n : nat) : string := "id-" +:+ SequentialNames.showNat n.

Definition sampleScript : list File -> Comp Returned :=
  script SampleJson sampleParse sampleElements sampleIsObject sampleStringify sampleUuid.

End ArrayToFiles.

(** * Properties *)

(** ** Strings *)

#[local] Arguments String.append !_ _ / : simpl nomatch.

Lemma append_assoc (a b c : string) : (a +:+ b) +:+ c = a +:+ (b +:+ c).
Proof. induction a as [|x a IH]; simpl; [reflexivity | now rewrite IH]. Qed.

Lemma append_empty_r (a : string) : a +:+ EmptyString = a.
Proof. induction a as [|x a IH]; simpl; [reflexivity | now rewrite IH]. Qed.

Lemma startsWith_spec (p s : string) :
  Js.startsWith p s = true <-> exists t, s = p +:+ t.
Proof.
  revert s. induction p as [|a p IH]; intros s; simpl.
  - split; [intros _; now exists s | reflexivity].
  - destruct s as [|b s].
    + split; [discriminate | intros [t Ht]; discriminate].
    + destruct (Ascii.eqb_spec a b) as [->|Hne].
      * rewrite IH. split; intros [t Ht]; exists t; congruence.
      * split; [discriminate | intros [t Ht]; congruence].
Qed.

(** The tags the walker tests exclude one another: a segment starts with at
    most one of two different three-letter tags. *)
Lemma startsWith_tag_excl (a b c c' : ascii) (s : string) :
  c <> c' ->
  Js.startsWith (String a (String b (String c EmptyString))) s = true ->
  Js.startsWith (String a (String b (String c' EmptyString))) s = false.
Proof.
  intros Hne H. apply startsWith_spec in H as [t ->]. simpl.
  rewrite !Ascii.eqb_refl.
  destruct (Ascii.eqb_spec c' c); [congruence | reflexivity].
Qed.

Ltac tag_excl H :=
  repeat match goal with
    | |- context [Js.startsWith (String ?a (String ?b (String ?c' EmptyString))) ?s] =>
        match type of H with
        | Js.startsWith (String a (String b (String ?c EmptyString))) s = true =>
            rewrite (startsWith_tag_excl a b c c' s ltac:(discriminate) H)
        end
    end.

(** ** The monad *)

Lemma bind_ok {A B} (evs : list Event) (a : A) (k : A -> M B) :
  bind (evs, Ok a) k = (evs ++ fst (k a), snd (k a)).
Proof. unfold bind. now destruct (k a). Qed.

Lemma bind_ret {A B} (a : A) (k : A -> M B) : bind (ret a) k = k a.
Proof. unfold ret. rewrite bind_ok. simpl. now destruct (k a). Qed.

(** ** One segment *)

Section WalkerFacts.

Variable sourceFile : File.
Variable elemSep : option string.

Lemma flushTransaction_ok (st : WalkState) (ackCode : string) :
  exists evs st', flushTransaction st ackCode = (evs, Ok st').
Proof.
  unfold flushTransaction. destruct (currentDocType st); [unfold ret; eauto|].
  destruct (String.eqb ackCode "R"); simpl; eauto.
Qed.

(** The loop body never throws. *)
Lemma step_ok (st : WalkState) (seg : string) :
  exists evs st', step sourceFile elemSep st seg = (evs, Ok st').
Proof.
  unfold step.
  repeat match goal with
         | |- context [if Js.startsWith ?p seg then _ else _] =>
             destruct (Js.startsWith p seg)
         end;
    try (unfold ret; simpl; eauto; fail).
  - destruct (currentSegment st); unfold ret; eauto.
  - apply flushTransaction_ok.
  - simpl. destruct (_ && _); simpl; eauto.
Qed.

Lemma step_AK4 (st : WalkState) (seg : string) :
  Js.startsWith "AK4" seg = true ->
  step sourceFile elemSep st seg =
    match currentSegment st with
    | Some r =>
        let elements := fields (safeSplit (Some seg) elemSep None) in
        ret (mkWalkState (currentDocType st) (currentControlNumber st)
               (currentSegmentErrors st) (currentSegment st) (overallStatus st)
               (ak102 st)
               (pushElementError (heap st) r
                  (mkElementError
                     (Js.orElse (Some (elementOr elements 2 EmptyString))
                        (elementOr elements 1 EmptyString))
                     (elementErrorDesc (elementOr elements 3 EmptyString))
                     (elementOr elements 4 EmptyString))))
    | None => ret st
    end.
Proof.
  intros H. unfold step. tag_excl H. rewrite H. reflexivity.
Qed.

Lemma step_AK5 (st : WalkState) (seg : string) :
  Js.startsWith "AK5" seg = true ->
  step sourceFile elemSep st seg = flushTransaction st (firstElement elemSep seg).
Proof.
  intros H. unfold step. tag_excl H. rewrite H. reflexivity.
Qed.

End WalkerFacts.

Section WalkFacts.

Variable sourceFile : File.
Variable elemSep : option string.

Lemma step_AK9 (st : WalkState) (seg : string) :
  Js.startsWith "AK9" seg = true ->
  exists evs,
    step sourceFile elemSep st seg =
      (evs,
       Ok (if negb (ak9Accepted (firstElement elemSep seg))
              && String.eqb (overallStatus st) "A"
           then mkWalkState (currentDocType st) (currentControlNumber st)
                  (currentSegmentErrors st) (currentSegment st)
                  (firstElement elemSep seg) (ak102 st) (heap st)
           else st)).
Proof.
  intros H. unfold step. tag_excl H. rewrite H.
  fold (firstElement elemSep seg). unfold ak9Accepted.
  destruct (negb _ && _); simpl; eauto.
Qed.

(** Segments other than AK9 leave the overall status alone. *)
Lemma step_other_status (st : WalkState) (seg : string) evs st' :
  Js.startsWith "AK9" seg = false ->
  step sourceFile elemSep st seg = (evs, Ok st') ->
  overallStatus st' = overallStatus st.
Proof.
  intros H. unfold step. rewrite H.
  repeat match goal with
         | |- context [if Js.startsWith ?p seg then _ else _] =>
             destruct (Js.startsWith p seg)
         end;
    try (unfold ret; simpl; intros [= <- <-]; reflexivity).
  - destruct (currentSegment st); unfold ret; intros [= <- <-]; reflexivity.
  - unfold flushTransaction. destruct (currentDocType st).
    + unfold ret; intros [= <- <-]; reflexivity.
    + destruct (String.eqb _ "R"); simpl; intros [= <- <-]; reflexivity.
Qed.

Lemma walk_cons (seg : string) (rest : list string) (st : WalkState) evs st' :
  step sourceFile elemSep st seg = (evs, Ok st') ->
  walk sourceFile elemSep (seg :: rest) st =
    (evs ++ fst (walk sourceFile elemSep rest st'),
     snd (walk sourceFile elemSep rest st')).
Proof. intros H. simpl. rewrite H. apply bind_ok. Qed.

(** The loop never throws. *)
Lemma walk_ok (segs : list string) (st : WalkState) :
  exists evs st', walk sourceFile elemSep segs st = (evs, Ok st').
Proof.
  revert st. induction segs as [|seg rest IH]; intros st.
  - simpl. unfold ret. eauto.
  - destruct (step_ok sourceFile elemSep st seg) as (e1 & st1 & H1).
    rewrite (walk_cons _ _ _ _ _ H1).
    destruct (IH st1) as (e2 & st2 & H2). rewrite H2. simpl. eauto.
Qed.

Lemma upper_A_not_latched (c : string) : ak9Accepted c = false -> c <> "A".
Proof. intros H ->. discriminate. Qed.

Lemma latched_cons (c : string) (codes : list string) :
  latched (c :: codes) = if ak9Accepted c then latched codes else c.
Proof. unfold latched. simpl. now destruct (ak9Accepted c). Qed.

Lemma ak9Codes_cons (seg : string) (rest : list string) :
  ak9Codes elemSep (seg :: rest) =
    if Js.startsWith "AK9" seg
    then firstElement elemSep seg :: ak9Codes elemSep rest
    else ak9Codes elemSep rest.
Proof.
  unfold ak9Codes. cbn [List.filter].
  destruct (Js.startsWith "AK9" seg); reflexivity.
Qed.

(** The status the loop ends with, from any starting state. *)
Lemma walk_status (segs : list string) (st : WalkState) :
  exists evs st',
    walk sourceFile elemSep segs st = (evs, Ok st')
    /\ overallStatus st' =
         if String.eqb (overallStatus st) "A"
         then latched (ak9Codes elemSep segs)
         else overallStatus st.
Proof.
  revert st. induction segs as [|seg rest IH]; intros st.
  - exists [], st. split; [reflexivity|].
    destruct (String.eqb_spec (overallStatus st) "A") as [->|]; reflexivity.
  - rewrite ak9Codes_cons.
    destruct (Js.startsWith "AK9" seg) eqn:Htag.
    + destruct (step_AK9 st seg Htag) as (e1 & H1).
      rewrite (walk_cons _ _ _ _ _ H1), latched_cons.
      destruct (ak9Accepted (firstElement elemSep seg)) eqn:Hacc; simpl in *.
      * destruct (IH st) as (e2 & st2 & H2 & Hst). rewrite H2. simpl. eauto.
      * destruct (String.eqb_spec (overallStatus st) "A") as [HA|HA].
        -- destruct (IH (mkWalkState (currentDocType st) (currentControlNumber st)
                           (currentSegmentErrors st) (currentSegment st)
                           (firstElement elemSep seg) (ak102 st) (heap st)))
             as (e2 & st2 & H2 & Hst).
           rewrite H2. simpl. do 2 eexists. split; [reflexivity|].
           rewrite Hst. simpl.
           apply upper_A_not_latched, String.eqb_neq in Hacc. now rewrite Hacc.
        -- destruct (IH st) as (e2 & st2 & H2 & Hst). rewrite H2. simpl.
           do 2 eexists. split; [reflexivity|].
           rewrite Hst. now apply String.eqb_neq in HA as ->.
    + destruct (step_ok sourceFile elemSep st seg) as (e1 & st1 & H1).
      rewrite (walk_cons _ _ _ _ _ H1).
      destruct (IH st1) as (e2 & st2 & H2 & Hst). rewrite H2. simpl.
      do 2 eexists. split; [reflexivity|].
      rewrite Hst. now rewrite (step_other_status _ _ _ _ Htag H1).
Qed.

(** What an allocation or a push does to the invariant. *)
Lemma pushElementError_length (hp : list SegmentError) r e :
  length (pushElementError hp r e) = length hp.
Proof. unfold pushElementError. apply length_alter. Qed.

Lemma step_state_ok (st : WalkState) (seg : string) evs st' :
  state_ok st ->
  step sourceFile elemSep st seg = (evs, Ok st') ->
  state_ok st'.
Proof.
  intros [Hrefs Hcur]. unfold step.
  repeat match goal with
         | |- context [if Js.startsWith ?p seg then _ else _] =>
             destruct (Js.startsWith p seg)
         end.
  - simpl. intros [= <- <-]. split; assumption.
  - unfold ret. intros [= <- <-]. split; simpl; [constructor | exact I].
  - unfold ret. intros [= <- <-]. split; simpl.
    + apply Forall_app. split.
      * eapply Forall_impl; [exact Hrefs|]. simpl. intros r Hr.
        rewrite length_app. simpl. lia.
      * repeat constructor. rewrite length_app. simpl. lia.
    + apply last_snoc.
  - destruct (currentSegment st) as [r|] eqn:Hc; unfold ret; intros [= <- <-].
    + split; simpl.
      * now rewrite pushElementError_length.
      * first [assumption | now rewrite Hc].
    + split; first [assumption | now rewrite Hc].
  - unfold flushTransaction. destruct (currentDocType st).
    + unfold ret. intros [= <- <-]. split; assumption.
    + destruct (String.eqb _ "R"); simpl; intros [= <- <-];
        (split; simpl; [constructor | exact I]).
  - simpl. destruct (negb _ && _); simpl; intros [= <- <-]; split; assumption.
  - unfold ret. intros [= <- <-]. split; assumption.
Qed.

Lemma initialState_ok : state_ok initialState.
Proof. split; simpl; [constructor | exact I]. Qed.

Lemma walk_state_ok (segs : list string) (st : WalkState) evs st' :
  state_ok st ->
  walk sourceFile elemSep segs st = (evs, Ok st') ->
  state_ok st'.
Proof.
  revert st evs. induction segs as [|seg rest IH]; intros st evs Hok.
  - simpl. unfold ret. now intros [= <- <-].
  - destruct (step_ok sourceFile elemSep st seg) as (e1 & st1 & H1).
    rewrite (walk_cons _ _ _ _ _ H1).
    destruct (walk_ok rest st1) as (e2 & st2 & H2). rewrite H2. simpl.
    intros [= <- <-]. eapply IH; [|exact H2].
    eapply step_state_ok; eassumption.
Qed.

End WalkFacts.

(** ** One file *)

Lemma indexOfFrom_miss (needle s : string) (pos : Z) :
  (0 <= pos)%Z ->
  (Js.indexOfFrom needle s pos = (-1)%Z <-> ~ occursIn needle s)
  /\ (Js.indexOfFrom needle s pos = (-1)%Z \/ (pos <= Js.indexOfFrom needle s pos)%Z).
Proof.
  revert pos. induction s as [|c s IH]; intros pos Hpos.
  - simpl. destruct (Js.startsWith needle EmptyString) eqn:Hp.
    + split; [|right; lia]. split; [lia|].
      intros Hno. exfalso. apply Hno. apply startsWith_spec in Hp as [t Ht].
      exists EmptyString, t. exact Ht.
    + split; [|now left]. split; [|reflexivity]. intros _ (pre & post & Heq).
      destruct pre; [|discriminate]. simpl in Heq.
      assert (Js.startsWith needle EmptyString = true)
        by (apply startsWith_spec; eauto).
      congruence.
  - cbn [Js.indexOfFrom]. destruct (Js.startsWith needle (String c s)) eqn:Hp.
    + split; [|right; lia]. split; [lia|].
      intros Hno. exfalso. apply Hno. apply startsWith_spec in Hp as [t Ht].
      exists EmptyString, t. exact Ht.
    + destruct (IH (pos + 1)%Z ltac:(lia)) as [IH1 IH2].
      split; [|destruct IH2; [now left | right; lia]].
      rewrite IH1. split.
      * intros Hno (pre & post & Heq). destruct pre as [|x pre].
        -- assert (Js.startsWith needle (String c s) = true)
             by (apply startsWith_spec; eauto).
           congruence.
        -- simpl in Heq. injection Heq as _ Heq. apply Hno. now exists pre, post.
      * intros Hno (pre & post & Heq). apply Hno.
        exists (String c pre), post. simpl. now rewrite Heq.
Qed.

(** [indexOf] answers [-1] exactly when there is no occurrence. *)
Lemma indexOf_miss (content needle : string) :
  Js.indexOf content needle = (-1)%Z <-> ~ occursIn needle content.
Proof. apply indexOfFrom_miss. lia. Qed.

(** A file that has a body: the gate, then the tags and the walk. *)
Lemma parse997Try_content (f : File) (content : string) :
  body f = Some content ->
  parse997Try f =
    if (Js.indexOf content "ISA" =? -1)%Z || negb (String.eqb (st01Of content) "997")
    then ([], Ok (notA997 f))
    else (envelopeTags content
            :: fst (walk f (sepOf content) (segmentsOf content) initialState),
          Ok (mkResult true f
                (Some (latched (ak9Codes (sepOf content) (segmentsOf content)))))).
Proof.
  intros Hb. unfold parse997Try. rewrite Hb.
  destruct (Js.indexOf content "ISA" =? -1)%Z; [reflexivity|].
  fold (isaWindow content). fold (resolveDelimiters content).
  fold (segmentsOf content). fold (sepOf content). fold (st01Of content).
  destruct (String.eqb (st01Of content) "997"); [|reflexivity].
  cbn [orb negb].
  destruct (walk_status f (sepOf content) (segmentsOf content) initialState)
    as (evs & st & Hw & Hst).
  change (overallStatus st
          = latched (ak9Codes (sepOf content) (segmentsOf content))) in Hst.
  rewrite Hw, <- Hst. cbn [fst]. unfold publishDataTags, envelopeTags, bind, ret.
  cbn [app]. now rewrite app_nil_r.
Qed.

Lemma parse997Try_no_body (f : File) :
  body f = None -> parse997Try f = ([], Throw noBodyMessage).
Proof. intros Hb. unfold parse997Try. now rewrite Hb. Qed.

(** The only exception of the [try] block is the one of a missing body. *)
Lemma parse997Try_throw_inv (f : File) evs msg :
  parse997Try f = (evs, Throw msg) ->
  body f = None /\ evs = [] /\ msg = noBodyMessage.
Proof.
  destruct (body f) as [content|] eqn:Hb.
  - rewrite (parse997Try_content f content Hb).
    destruct (_ || _); discriminate.
  - rewrite (parse997Try_no_body f Hb). now intros [= <- <-].
Qed.

Lemma parse997File_content (f : File) (content : string) :
  body f = Some content ->
  parse997File f = parse997Try f.
Proof.
  intros Hb. unfold parse997File. rewrite (parse997Try_content f content Hb).
  now destruct (_ || _).
Qed.

Lemma parse997File_no_body (f : File) :
  body f = None ->
  parse997File f = ([failureEntry f noBodyMessage], Ok (notA997 f)).
Proof.
  intros Hb. unfold parse997File. rewrite (parse997Try_no_body f Hb). reflexivity.
Qed.

(** The classifier always returns, and returns the record it was given. *)
Lemma parse997File_ok (f : File) :
  exists evs r, parse997File f = (evs, Ok r) /\ file r = f.
Proof.
  destruct (body f) as [content|] eqn:Hb.
  - rewrite (parse997File_content f content Hb), (parse997Try_content f content Hb).
    destruct (_ || _); eauto.
  - rewrite (parse997File_no_body f Hb). eauto.
Qed.

Lemma classify_some (f : File) :
  exists r, classify f = Some r /\ file r = f
            /\ parse997File f = (fst (parse997File f), Ok r).
Proof.
  unfold classify. destruct (parse997File_ok f) as (evs & r & H & Hf).
  rewrite H. eauto.
Qed.

Lemma recognized_content (f : File) (content : string) :
  body f = Some content ->
  recognized f =
    negb ((Js.indexOf content "ISA" =? -1)%Z || negb (String.eqb (st01Of content) "997")).
Proof.
  intros Hb. unfold recognized, classify.
  rewrite (parse997File_content f content Hb), (parse997Try_content f content Hb).
  now destruct (_ || _).
Qed.

Lemma recognized_no_body (f : File) : body f = None -> recognized f = false.
Proof.
  intros Hb. unfold recognized, classify. now rewrite (parse997File_no_body f Hb).
Qed.

(** The status of a recognized file is the latched AK9 code. *)
Lemma classify_status (f : File) (content : string) (r : Result) :
  body f = Some content ->
  classify f = Some r ->
  is997 r = true ->
  status r = Some (latched (ak9Codes (sepOf content) (segmentsOf content))).
Proof.
  intros Hb. unfold classify.
  rewrite (parse997File_content f content Hb), (parse997Try_content f content Hb).
  destruct (_ || _); intros [= <-]; [discriminate | reflexivity].
Qed.

Lemma accepted_rejected (f : File) :
  recognized f = acceptedFile f || rejectedFile f
  /\ acceptedFile f && rejectedFile f = false.
Proof.
  unfold recognized, acceptedFile, rejectedFile.
  destruct (classify f) as [r|]; [|now split].
  destruct (is997 r), (bool_decide _); now split.
Qed.

(** ** The batch *)

Lemma collect_spec (acc : Batch) (f : File) :
  collect acc f =
    (fst (parse997File f),
     Ok (mkBatch (payload acc ++ one (recognized f) f)
           (accepted acc ++ one (acceptedFile f) f)
           (rejected acc ++ one (rejectedFile f) f))).
Proof.
  destruct (classify_some f) as (r & Hc & Hf & Hp).
  unfold collect. rewrite Hp, bind_ok.
  unfold recognized, acceptedFile, rejectedFile. rewrite Hc, Hf. cbn [fst].
  destruct (is997 r); [destruct (bool_decide (status r = Some "A"))|];
    cbn; rewrite ?app_nil_r; destruct acc; reflexivity.
Qed.

Lemma filter_cons_one (p : File -> bool) (f : File) (l : list File) :
  List.filter p (f :: l) = one (p f) f ++ List.filter p l.
Proof. cbn [List.filter]. unfold one. now destruct (p f). Qed.

(** The loop computes three filters of the input, in input order, and emits
    the events of each file in turn. *)
Lemma collectAll_spec (sourceFiles : list File) (acc : Batch) :
  collectAll sourceFiles acc =
    (concat (map (fun f => fst (parse997File f)) sourceFiles),
     Ok (mkBatch (payload acc ++ List.filter recognized sourceFiles)
           (accepted acc ++ List.filter acceptedFile sourceFiles)
           (rejected acc ++ List.filter rejectedFile sourceFiles))).
Proof.
  revert acc. induction sourceFiles as [|f rest IH]; intros acc.
  - cbn. rewrite !app_nil_r. now destruct acc.
  - cbn [collectAll]. rewrite collect_spec, bind_ok, IH. cbn [fst snd payload accepted rejected map concat].
    rewrite !filter_cons_one, !app_assoc. reflexivity.
Qed.

Lemma run_spec (sourceFiles : list File) :
  run sourceFiles =
    (concat (map (fun f => fst (parse997File f)) sourceFiles),
     Ok (decideBatch
           (mkBatch (List.filter recognized sourceFiles)
              (List.filter acceptedFile sourceFiles)
              (List.filter rejectedFile sourceFiles)))).
Proof.
  unfold run. rewrite collectAll_spec, bind_ok. cbn. now rewrite app_nil_r.
Qed.

Lemma decideBatch_cases (p a r : list File) :
  decideBatch (mkBatch p a r) =
    match p with
    | [] => ReturnSkipped []
    | _ :: _ => match r with
                | [] => ReturnSuccess a
                | _ :: _ => ReturnError r
                end
    end.
Proof. unfold decideBatch. destruct p, r; reflexivity. Qed.

Lemma dispositionOf_spec (sourceFiles : list File) :
  dispositionOf sourceFiles =
    Some match List.filter recognized sourceFiles with
         | [] => ReturnSkipped []
         | _ :: _ =>
             match List.filter rejectedFile sourceFiles with
             | [] => ReturnSuccess (List.filter acceptedFile sourceFiles)
             | _ :: _ => ReturnError (List.filter rejectedFile sourceFiles)
             end
         end.
Proof.
  unfold dispositionOf. rewrite run_spec, decideBatch_cases. reflexivity.
Qed.

(** Whatever the disposition, its files are input files classified as 997s. *)
Lemma payload_recognized (sourceFiles : list File) (d : Disposition) (f : File) :
  dispositionOf sourceFiles = Some d ->
  In f (filesOf d) ->
  In f sourceFiles /\ recognized f = true.
Proof.
  rewrite dispositionOf_spec. intros [= <-].
  destruct (List.filter recognized sourceFiles); [intros []|].
  destruct (List.filter rejectedFile sourceFiles) eqn:Hr.
  - cbn [filesOf]. rewrite filter_In. intros [Hin Ha]. split; [exact Hin|].
    destruct (accepted_rejected f) as [-> _]. now rewrite Ha.
  - cbn [filesOf]. rewrite <- Hr, filter_In. intros [Hin Ha]. split; [exact Hin|].
    destruct (accepted_rejected f) as [-> _]. rewrite Ha. apply orb_true_r.
Qed.

(** Removing a file that is not classified as a 997 changes no disposition. *)
Lemma dispositionOf_skip (before after : list File) (f : File) :
  recognized f = false ->
  dispositionOf (before ++ f :: after) = dispositionOf (before ++ after).
Proof.
  intros Hf. destruct (accepted_rejected f) as [Hor _]. rewrite Hf in Hor.
  symmetry in Hor. apply orb_false_elim in Hor as [Ha Hr].
  rewrite !dispositionOf_spec, !List.filter_app. cbn [List.filter].
  now rewrite Hf, Ha, Hr.
Qed.

(** C1: the batch decision.  The script always returns; it answers Skipped
    with no file when no input file is classified as a 997, otherwise Error
    with exactly the classified 997s whose status is not ['A'] when there
    is one, otherwise Success with exactly the classified 997s whose status
    is ['A']; every file of the answer is an input file classified as a
    997. *)
Theorem C1_batch_disposition (sourceFiles : list File) :
  exists evs d,
    run sourceFiles = (evs, Ok d)
    /\ d = match List.filter recognized sourceFiles with
           | [] => ReturnSkipped []
           | _ :: _ =>
               match List.filter rejectedFile sourceFiles with
               | [] => ReturnSuccess (List.filter acceptedFile sourceFiles)
               | _ :: _ => ReturnError (List.filter rejectedFile sourceFiles)
               end
           end
    /\ Forall (fun f => In f sourceFiles /\ recognized f = true) (filesOf d).
Proof.
  pose proof (dispositionOf_spec sourceFiles) as Hd.
  unfold dispositionOf in Hd. rewrite run_spec in Hd |- *.
  injection Hd as Hd. do 2 eexists. split; [reflexivity|]. split; [exact Hd|].
  apply List.Forall_forall. intros f Hin.
  eapply (payload_recognized sourceFiles); [|exact Hin].
  unfold dispositionOf. now rewrite run_spec.
Qed.

(** C2: a file with no occurrence of ["ISA"], or whose first segment
    starting with ["ST"] has a first data element other than ["997"], is
    answered [{ is997: false, file }] with nothing logged or published, and
    is in the files of no disposition. *)
Theorem C2_not_a_997 (f : File) (content : string) :
  body f = Some content ->
  ~ occursIn "ISA" content
  \/ (exists seg,
        List.find (Js.startsWith "ST") (segmentsOf content) = Some seg
        /\ Js.split seg (sepOf content) !! 1 <> Some "997") ->
  parse997File f = ([], Ok (notA997 f))
  /\ forall sourceFiles d,
       dispositionOf sourceFiles = Some d -> ~ In f (filesOf d).
Proof.
  intros Hb Hcase.
  assert ((Js.indexOf content "ISA" =? -1)%Z
          || negb (String.eqb (st01Of content) "997") = true) as Hgate.
  { destruct Hcase as [Hno | (seg & Hfind & Hne)].
    - apply indexOf_miss in Hno. rewrite Hno. reflexivity.
    - apply orb_true_iff. right. apply negb_true_iff, String.eqb_neq.
      unfold st01Of. rewrite Hfind. unfold safeSplit, field.
      destruct seg as [|c seg]; [discriminate|].
      destruct (Js.split (String c seg) (sepOf content) !! 1) as [[|x e]|];
        cbn; congruence. }
  split.
  - rewrite (parse997File_content f content Hb), (parse997Try_content f content Hb).
    now rewrite Hgate.
  - intros sourceFiles d Hd Hin.
    apply (payload_recognized _ _ _ Hd) in Hin as [_ Hrec].
    rewrite (recognized_content f content Hb), Hgate in Hrec. discriminate.
Qed.

(** C6: when the [try] block of a file throws, the classifier logs one
    error entry made of the file's name and the exception's message, logs
    and publishes nothing else, and answers [{ is997: false, file }]; the
    file is in the files of no disposition, and the disposition of a batch
    is the one of the batch without that file. *)
Theorem C6_exception_is_absorbed (f : File) (evs : list Event) (msg : string) :
  parse997Try f = (evs, Throw msg) ->
  parse997File f = ([failureEntry f msg], Ok (notA997 f))
  /\ (forall sourceFiles d,
        dispositionOf sourceFiles = Some d -> ~ In f (filesOf d))
  /\ (forall before after,
        dispositionOf (before ++ f :: after) = dispositionOf (before ++ after)).
Proof.
  intros Ht. destruct (parse997Try_throw_inv f evs msg Ht) as (Hb & -> & ->).
  pose proof (recognized_no_body f Hb) as Hrec.
  split; [now apply parse997File_no_body|]. split.
  - intros sourceFiles d Hd Hin.
    apply (payload_recognized _ _ _ Hd) in Hin as [_ Hin]. congruence.
  - intros before after. now apply dispositionOf_skip.
Qed.

(** ** The consolidated message *)

Lemma fold_elementLines (els : list ElementError) (message : string) :
  fold_left (fun m elemErr => m +:+ elementLine elemErr) els message =
    message +:+ fold_right String.append EmptyString (map elementLine els).
Proof.
  revert message. induction els as [|e els IH]; intros message; cbn [fold_left map fold_right].
  - now rewrite append_empty_r.
  - now rewrite IH, append_assoc.
Qed.

Lemma joinLines_cons (b : string) (rest : list string) :
  joinLines (b :: rest) =
    b +:+ match rest with [] => EmptyString | _ => Js.LF +:+ joinLines rest end.
Proof. destruct rest; cbn [joinLines]; [now rewrite append_empty_r | reflexivity]. Qed.

(** The [forEach] of [flushTransaction] appends the blocks of the segment
    errors, separated by line feeds. *)
Lemma forEachSegErr_spec (hp : list SegmentError) (len : nat) (refs : list nat) :
  forall (idx : nat) (message : string),
    Forall (fun r => r < length hp) refs ->
    idx + length refs = len ->
    forEachSegErr hp len idx refs message =
      message +:+ joinLines (map renderSegmentError (omap (fun r => hp !! r) refs)).
Proof.
  induction refs as [|r rest IH]; intros idx message Hall Hlen.
  - cbn. now rewrite append_empty_r.
  - apply Forall_cons in Hall as [Hr Hall].
    destruct (lookup_lt_is_Some_2 hp r Hr) as [segErr Hlk].
    cbn [forEachSegErr omap list_omap]. rewrite Hlk.
    cbn [map]. rewrite joinLines_cons.
    assert ((if (0 <? length (elementErrors segErr))%nat
             then fold_left (fun m elemErr => m +:+ elementLine elemErr)
                    (elementErrors segErr) (message +:+ segmentLine segErr)
             else message +:+ segmentLine segErr)
            = message +:+ renderSegmentError segErr) as ->.
    { unfold renderSegmentError. cbn [fold_right].
      destruct (elementErrors segErr) as [|e els] eqn:He.
      - cbn. now rewrite append_empty_r.
      - cbn [length Nat.ltb Nat.leb]. now rewrite fold_elementLines, append_assoc. }
    cbn [length] in Hlen.
    rewrite IH by (try assumption; lia).
    destruct rest as [|r' rest'].
    + cbn [length] in Hlen.
      replace (idx <? len - 1)%nat with false
        by (symmetry; apply Nat.ltb_ge; lia).
      cbn. now rewrite !append_empty_r.
    + cbn [length] in Hlen.
      replace (idx <? len - 1)%nat with true
        by (symmetry; apply Nat.ltb_lt; lia).
      apply Forall_cons in Hall as [Hr' _].
      destruct (lookup_lt_is_Some_2 hp r' Hr') as [segErr' Hlk'].
      cbn [omap list_omap]. rewrite Hlk'. cbn [map].
      now rewrite !append_assoc.
Qed.

Lemma accumulated_nil (st : WalkState) :
  state_ok st ->
  (accumulated st = [] <-> currentSegmentErrors st = []).
Proof.
  intros [Hall _]. unfold accumulated.
  destruct (currentSegmentErrors st) as [|r rest]; [easy|].
  apply Forall_cons in Hall as [Hr _].
  destruct (lookup_lt_is_Some_2 (heap st) r Hr) as [segErr Hlk].
  cbn [omap list_omap]. rewrite Hlk. easy.
Qed.

Lemma flushMessage_spec (st : WalkState) (ackCode : string) :
  state_ok st ->
  flushMessage st ackCode =
    transactionReport (currentDocType st) (currentControlNumber st)
      (transactionAckDesc ackCode) (accumulated st).
Proof.
  intros Hok. unfold flushMessage, transactionReport.
  destruct (currentSegmentErrors st) as [|r rest] eqn:Hrefs.
  - assert (accumulated st = []) as -> by now apply accumulated_nil.
    cbn. now rewrite !append_empty_r.
  - destruct (accumulated st) as [|e es] eqn:Hacc.
    { apply accumulated_nil in Hacc; [congruence | assumption]. }
    rewrite <- Hacc. unfold accumulated. rewrite Hrefs.
    cbn [length Nat.ltb Nat.leb].
    rewrite forEachSegErr_spec.
    + now rewrite !append_assoc.
    + destruct Hok as [Hall _]. now rewrite Hrefs in Hall.
    + reflexivity.
Qed.

(** C7: at any point of a walk, an AK5 segment met while a transaction is
    open (the document type is not empty) emits exactly one event, the
    consolidated message made of
    the header with the description of the ack code and one block per
    accumulated segment error with its element errors; the event is an
    error entry when the ack code is ["R"] and an info entry otherwise; in
    the state that follows, the document type, the control number, the
    segment errors and the current segment error are empty. *)
Theorem C7_AK5_closes_transaction (sourceFile : File) (elemSep : option string)
    (before : list string) (evs : list Event) (st : WalkState) (seg : string) :
  walk sourceFile elemSep before initialState = (evs, Ok st) ->
  Js.startsWith "AK5" seg = true ->
  currentDocType st <> EmptyString ->
  let ackCode := firstElement elemSep seg in
  let message :=
    transactionReport (currentDocType st) (currentControlNumber st)
      (transactionAckDesc ackCode) (accumulated st) in
  step sourceFile elemSep st seg =
    ([if String.eqb ackCode "R" then LogError message else LogInfo message],
     Ok (mkWalkState EmptyString EmptyString [] None
           (overallStatus st) (ak102 st) (heap st))).
Proof.
  intros Hwalk Htag Hopen ackCode message.
  assert (state_ok st) as Hok
    by (eapply walk_state_ok; [apply initialState_ok | exact Hwalk]).
  rewrite (step_AK5 _ _ _ _ Htag). fold ackCode.
  unfold flushTransaction. destruct (currentDocType st) eqn:Hdoc; [congruence|].
  rewrite (flushMessage_spec st ackCode Hok). subst message. rewrite Hdoc.
  destruct (String.eqb ackCode "R"); reflexivity.
Qed.

(** C10: an AK5 segment met while no transaction is open (the document
    type is empty) emits nothing and leaves the walker's state as it was. *)
Theorem C10_AK5_without_transaction (sourceFile : File) (elemSep : option string)
    (st : WalkState) (seg : string) :
  Js.startsWith "AK5" seg = true ->
  currentDocType st = EmptyString ->
  step sourceFile elemSep st seg = ([], Ok st).
Proof.
  intros Htag Hdoc. rewrite (step_AK5 _ _ _ _ Htag).
  unfold flushTransaction. now rewrite Hdoc.
Qed.

(** ** The walk *)

(** C8: at every point of a walk the state is well formed: the current
    segment error, if any, is the one last appended to the transaction's
    array, and every reference is allocated; the walk never throws.  An AK4
    segment met while there is no current segment error emits nothing and
    leaves the state as it was, so that the walk goes on as if the segment
    were not there. *)
Theorem C8_AK4_without_current_segment (sourceFile : File) (elemSep : option string) :
  (forall segs,
     exists evs st,
       walk sourceFile elemSep segs initialState = (evs, Ok st) /\ state_ok st)
  /\ (forall st seg rest,
        Js.startsWith "AK4" seg = true ->
        currentSegment st = None ->
        step sourceFile elemSep st seg = ([], Ok st)
        /\ walk sourceFile elemSep (seg :: rest) st
           = walk sourceFile elemSep rest st).
Proof.
  split.
  - intros segs.
    destruct (walk_ok sourceFile elemSep segs initialState) as (evs & st & Hw).
    exists evs, st. split; [exact Hw|].
    eapply walk_state_ok; [apply initialState_ok | exact Hw].
  - intros st seg rest Htag Hcur.
    assert (step sourceFile elemSep st seg = ([], Ok st)) as Hstep
      by (rewrite (step_AK4 _ _ _ _ Htag), Hcur; reflexivity).
    split; [exact Hstep|].
    rewrite (walk_cons _ _ _ _ _ _ _ Hstep).
    now destruct (walk sourceFile elemSep rest st).
Qed.

(** C3: the overall status starts at ['A']; a walk started with status
    ['A'] ends with the first AK9 code that fails the acceptance test of the
    latch, or with ['A'] when no AK9 code fails it (in particular when there
    is no AK9 segment); a walk started with another status ends with that
    status; the status of a file classified as a 997 is the code so
    latched. *)
Theorem C3_first_error_wins (sourceFile : File) (elemSep : option string)
    (segs : list string) (st : WalkState) :
  overallStatus initialState = "A"
  /\ latched [] = "A"
  /\ (exists evs st',
        walk sourceFile elemSep segs st = (evs, Ok st')
        /\ overallStatus st' =
             if String.eqb (overallStatus st) "A"
             then latched (ak9Codes elemSep segs)
             else overallStatus st)
  /\ (forall content r,
        body sourceFile = Some content ->
        classify sourceFile = Some r ->
        is997 r = true ->
        status r = Some (latched (ak9Codes (sepOf content) (segmentsOf content)))).
Proof.
  split; [reflexivity|]. split; [reflexivity|]. split.
  - apply walk_status.
  - intros content r. apply classify_status.
Qed.

Lemma upperChar_A (c : ascii) :
  Js.upperChar c = "A"%char <-> c = "A"%char \/ c = "a"%char.
Proof.
  destruct c as [[] [] [] [] [] [] [] []]; vm_compute;
    split; intros H; try discriminate; auto;
    destruct H as [H|H]; discriminate.
Qed.

(** The codes the latch accepts are ["A"] and ["a"]. *)
Lemma toUpperCase_A (c : string) :
  Js.toUpperCase c = "A" <-> c = "A" \/ c = "a".
Proof.
  destruct c as [|x [|y s]]; cbn [Js.toUpperCase].
  - split; [discriminate | intros [H|H]; discriminate].
  - split.
    + intros [= H]. apply upperChar_A in H as [->| ->]; auto.
    + intros [[= ->]|[= ->]]; reflexivity.
  - split; [discriminate | intros [H|H]; discriminate].
Qed.

Lemma latched_all_accepted (codes : list string) :
  Forall (fun c => Js.toUpperCase c = "A") codes -> latched codes = "A".
Proof.
  induction 1 as [|c codes Hc _ IH]; [reflexivity|].
  rewrite latched_cons. unfold ak9Accepted. now rewrite Hc.
Qed.

(** C9: an AK9 segment whose code has the upper-case form ["A"] leaves the
    walker's state, hence its overall status, as it was; a file classified
    as a 997 all of whose AK9 codes are such has the status ['A'], counts as
    accepted, and alone in a batch yields Success with that file.  The
    lower-case code ["a"] is such a code. *)
Theorem C9_case_insensitive_latch (f : File) :
  Js.toUpperCase "a" = "A"
  /\ (forall elemSep st seg,
        Js.startsWith "AK9" seg = true ->
        Js.toUpperCase (firstElement elemSep seg) = "A" ->
        snd (step f elemSep st seg) = Ok st)
  /\ (forall content r,
        body f = Some content ->
        classify f = Some r ->
        is997 r = true ->
        Forall (fun c => Js.toUpperCase c = "A")
          (ak9Codes (sepOf content) (segmentsOf content)) ->
        status r = Some "A"
        /\ acceptedFile f = true
        /\ dispositionOf [f] = Some (ReturnSuccess [f])).
Proof.
  split; [reflexivity|]. split.
  - intros elemSep st seg Htag Hup.
    destruct (step_AK9 f elemSep st seg Htag) as (evs & ->).
    unfold ak9Accepted. now rewrite Hup.
  - intros content r Hb Hc Hr Hall.
    assert (status r = Some "A") as Hst.
    { rewrite (classify_status f content r Hb Hc Hr).
      now rewrite (latched_all_accepted _ Hall). }
    assert (acceptedFile f = true) as Hacc.
    { unfold acceptedFile. rewrite Hc, Hr, Hst. reflexivity. }
    split; [exact Hst|]. split; [exact Hacc|].
    destruct (accepted_rejected f) as [Hrec Hexcl].
    rewrite Hacc in Hrec, Hexcl. cbn in Hrec, Hexcl.
    rewrite dispositionOf_spec. cbn [List.filter].
    now rewrite Hrec, Hacc, Hexcl.
Qed.

(** ** Code tables *)

Ltac table_entries H :=
  apply elem_of_list_to_map_2 in H;
  repeat (apply elem_of_cons in H; destruct H as [H|H];
          [injection H as -> ->; discriminate|]);
  now apply elem_of_nil in H.

Lemma AK3_nonempty (code d : string) : AK3_ERROR_ENUM !! code = Some d -> d <> EmptyString.
Proof. intros H. unfold AK3_ERROR_ENUM in H. table_entries H. Qed.

Lemma AK4_nonempty (code d : string) : AK4_ERROR_ENUM !! code = Some d -> d <> EmptyString.
Proof. intros H. unfold AK4_ERROR_ENUM in H. table_entries H. Qed.

Lemma AK5_nonempty (code d : string) : AK5_CODE_ENUM !! code = Some d -> d <> EmptyString.
Proof. intros H. unfold AK5_CODE_ENUM in H. table_entries H. Qed.

Lemma AK9_nonempty (code d : string) : AK9_CODE_ENUM !! code = Some d -> d <> EmptyString.
Proof. intros H. unfold AK9_CODE_ENUM in H. table_entries H. Qed.

Lemma valOr_present (table : gmap string string) (code d fallback : string) :
  table !! code = Some d -> d <> EmptyString ->
  valOr (getProp table code) fallback = VStr d.
Proof.
  intros H Hd. unfold getProp. rewrite H. cbn. destruct d; [congruence | reflexivity].
Qed.

Lemma valOr_absent (table : gmap string string) (code fallback : string) :
  table !! code = None -> code ∉ objectPrototypeKeys ->
  valOr (getProp table code) fallback = VStr fallback.
Proof.
  intros H Hk. unfold getProp. rewrite H.
  now rewrite bool_decide_eq_false_2.
Qed.

(** A key that names a member of [Object.prototype] is never described by
    a fallback text. *)
Lemma valOr_inherited (table : gmap string string) (code fallback : string) :
  table !! code = None -> code ∈ objectPrototypeKeys ->
  valOr (getProp table code) fallback = VProto code.
Proof.
  intros H Hk. unfold getProp. rewrite H.
  now rewrite bool_decide_eq_true_2.
Qed.

(** C5, as stated, fails on the transaction ack codes, where the code ["Z"]
    is absent from the table and is described as ["Z"], and on the segment
    error codes, where the code ["constructor"] is absent from the table and
    is described by the member of that name of [Object.prototype]. *)
Lemma C5_fallback_counterexample :
  ~ fallbackIsErrorCode AK5_CODE_ENUM transactionAckDesc
  /\ ~ fallbackIsErrorCode AK3_ERROR_ENUM segmentErrorDesc.
Proof.
  split; intros H.
  - specialize (H "Z" ltac:(vm_compute; reflexivity)).
    vm_compute in H. discriminate.
  - specialize (H "constructor" ltac:(vm_compute; reflexivity)).
    vm_compute in H. discriminate.
Qed.

(** C5, amended: in each of the four tables a code of the table is
    described by the table's text; a code that is in neither the table nor
    [Object.prototype] is described as ["Error code {code}"] by the AK3 and
    AK4 branches and as the code itself by the AK5 and AK9 branches. *)
Theorem C5_code_descriptions (code : string) :
  (forall d, AK3_ERROR_ENUM !! code = Some d -> segmentErrorDesc code = VStr d)
  /\ (forall d, AK4_ERROR_ENUM !! code = Some d -> elementErrorDesc code = VStr d)
  /\ (forall d, AK5_CODE_ENUM !! code = Some d -> transactionAckDesc code = VStr d)
  /\ (forall d, AK9_CODE_ENUM !! code = Some d -> groupAckDesc code = VStr d)
  /\ (code ∉ objectPrototypeKeys ->
      (AK3_ERROR_ENUM !! code = None ->
       segmentErrorDesc code = VStr ("Error code " +:+ code))
      /\ (AK4_ERROR_ENUM !! code = None ->
          elementErrorDesc code = VStr ("Error code " +:+ code))
      /\ (AK5_CODE_ENUM !! code = None -> transactionAckDesc code = VStr code)
      /\ (AK9_CODE_ENUM !! code = None -> groupAckDesc code = VStr code)).
Proof.
  split; [|split; [|split; [|split]]].
  - intros d H. eapply valOr_present; eauto using AK3_nonempty.
  - intros d H. eapply valOr_present; eauto using AK4_nonempty.
  - intros d H. eapply valOr_present; eauto using AK5_nonempty.
  - intros d H. eapply valOr_present; eauto using AK9_nonempty.
  - intros Hk.
    split; [|split; [|split]]; intros Hnone; now apply valOr_absent.
Qed.

(** ** Delimiters *)

Lemma substring_length (n m : nat) (s : string) :
  String.length (String.substring n m s) <= m.
Proof.
  revert n m. induction s as [|c s IH]; intros n m.
  - destruct n, m; cbn; lia.
  - destruct n as [|n].
    + destruct m as [|m]; cbn; [lia|]. specialize (IH 0 m). lia.
    + cbn. apply IH.
Qed.

Lemma index_out_of_range (s : string) (i : nat) :
  String.length s <= i -> Js.index s i = None.
Proof.
  unfold Js.index. revert i. induction s as [|c s IH]; intros i Hi.
  - now destruct i.
  - destruct i as [|i]; cbn in *; [lia|]. apply IH. lia.
Qed.

Lemma isaWindow_length (content : string) : String.length (isaWindow content) <= 106.
Proof.
  unfold isaWindow, Js.substr.
  etransitivity; [apply substring_length|]. lia.
Qed.

(** Inside [parse997File] the resolver sees a window of 106 characters, so
    its test of the character at offset 106 never succeeds: the segment
    terminator is the character at offset 105, alone. *)
Lemma resolveDelimiters_terminator (content : string) :
  segmentTerminator (resolveDelimiters content) = Js.index (isaWindow content) 105.
Proof.
  unfold resolveDelimiters, parseDelimiters.
  rewrite (index_out_of_range (isaWindow content) 106 (isaWindow_length content)).
  reflexivity.
Qed.

(** C4 at an interchange whose segments end in [~] and a line feed: the
    character after offset 105 of the ISA segment is a line feed, the
    resolver applied to the whole content would answer the two-character
    terminator, and the terminator resolved by [parse997File] is ["~"]
    alone; the accepted acknowledgment is then not classified as a 997. *)
Theorem C4_line_feed_terminator :
  Js.indexOf lineFeedBody "ISA" = 0%Z
  /\ Js.index lineFeedBody 105 = Some "~"
  /\ Js.index lineFeedBody 106 = Some Js.LF
  /\ segmentTerminator (parseDelimiters lineFeedBody) = Some ("~" +:+ Js.LF)
  /\ segmentTerminator (resolveDelimiters lineFeedBody) = Some "~"
  /\ parse997File (fileOf "ack.edi" lineFeedBody)
     = ([], Ok (notA997 (fileOf "ack.edi" lineFeedBody))).
Proof. repeat split; vm_compute; reflexivity. Qed.

(** ** The properties at sample inputs *)

(** C2 at an invoice: its ST segment carries the identifier 810. *)
Lemma C2_not_a_997_witness :
  body (fileOf "invoice.edi" invoiceBody) = Some invoiceBody
  /\ List.find (Js.startsWith "ST") (segmentsOf invoiceBody) = Some "ST*810*0001"
  /\ Js.split "ST*810*0001" (sepOf invoiceBody) !! 1 = Some "810"
  /\ parse997File (fileOf "invoice.edi" invoiceBody)
     = ([], Ok (notA997 (fileOf "invoice.edi" invoiceBody)))
  /\ dispositionOf [fileOf "invoice.edi" invoiceBody] = Some (ReturnSkipped []).
Proof.
  split; [reflexivity|]. split; [vm_compute; reflexivity|].
  split; [vm_compute; reflexivity|].
  split; [|vm_compute; reflexivity].
  apply (C2_not_a_997 (fileOf "invoice.edi" invoiceBody) invoiceBody eq_refl).
  right. exists "ST*810*0001". split; [vm_compute; reflexivity|].
  vm_compute. discriminate.
Defined.

(** C3 at a rejected acknowledgment: the status is the latched AK9 code. *)
Lemma C3_first_error_wins_witness :
  body (fileOf "ack.edi" rejectedBody) = Some rejectedBody
  /\ classify (fileOf "ack.edi" rejectedBody)
     = Some (mkResult true (fileOf "ack.edi" rejectedBody) (Some "R"))
  /\ Some "R" = Some (latched (ak9Codes (sepOf rejectedBody) (segmentsOf rejectedBody))).
Proof.
  assert (classify (fileOf "ack.edi" rejectedBody)
          = Some (mkResult true (fileOf "ack.edi" rejectedBody) (Some "R"))) as Hc
    by (vm_compute; reflexivity).
  split; [reflexivity|]. split; [exact Hc|].
  exact (proj2 (proj2 (proj2
           (C3_first_error_wins (fileOf "ack.edi" rejectedBody) None [] initialState)))
           rejectedBody _ eq_refl Hc eq_refl).
Defined.

(** C5, amended, at a code of a table and at two absent codes. *)
Lemma C5_code_descriptions_witness :
  AK3_ERROR_ENUM !! "8" = Some "Segment has data element errors"
  /\ segmentErrorDesc "8" = VStr "Segment has data element errors"
  /\ AK4_ERROR_ENUM !! "11" = None
  /\ elementErrorDesc "11" = VStr "Error code 11"
  /\ AK9_CODE_ENUM !! "Z" = None
  /\ groupAckDesc "Z" = VStr "Z".
Proof.
  assert ("11" ∉ objectPrototypeKeys) as H11
    by (apply (bool_decide_unpack ("11" ∉ objectPrototypeKeys)); vm_compute; exact I).
  assert ("Z" ∉ objectPrototypeKeys) as HZ
    by (apply (bool_decide_unpack ("Z" ∉ objectPrototypeKeys)); vm_compute; exact I).
  assert (AK3_ERROR_ENUM !! "8" = Some "Segment has data element errors") as H8
    by (vm_compute; reflexivity).
  assert (AK4_ERROR_ENUM !! "11" = None) as H4 by (vm_compute; reflexivity).
  assert (AK9_CODE_ENUM !! "Z" = None) as H9 by (vm_compute; reflexivity).
  split; [exact H8|].
  split; [exact (proj1 (C5_code_descriptions "8") _ H8)|].
  split; [exact H4|].
  split; [exact (proj1 (proj2 (proj2 (proj2 (proj2 (C5_code_descriptions "11")))) H11) H4)|].
  split; [exact H9|].
  exact (proj2 (proj2 (proj2 (proj2 (proj2 (proj2 (proj2 (C5_code_descriptions "Z")))) HZ))) H9).
Defined.

(** C6 at a record without a body. *)
Lemma C6_exception_is_absorbed_witness :
  parse997Try bodilessFile = ([], Throw noBodyMessage)
  /\ parse997File bodilessFile
     = ([LogError "Error processing file broken.edi: Cannot read properties of undefined (reading 'indexOf')"],
        Ok (notA997 bodilessFile))
  /\ dispositionOf [fileOf "ack.edi" acceptedBody; bodilessFile]
     = dispositionOf [fileOf "ack.edi" acceptedBody].
Proof.
  destruct (C6_exception_is_absorbed bodilessFile [] noBodyMessage eq_refl)
    as (Hlog & _ & Hskip).
  split; [reflexivity|]. split; [exact Hlog|].
  exact (Hskip [fileOf "ack.edi" acceptedBody] []).
Defined.

(** C7 at a rejection closing the sample transaction: the element error
    pushed through the current segment error is in the message. *)
Lemma C7_AK5_closes_transaction_witness :
  walk bodilessFile (Some "*") openSegments initialState
  = ([PublishDataTags [("997 Acked Group Control Number", "55")]], Ok openState)
  /\ Js.startsWith "AK5" "AK5*R" = true
  /\ currentDocType openState <> EmptyString
  /\ step bodilessFile (Some "*") openState "AK5*R"
     = ([LogError
           ("Transaction 850 #0007: Rejected" +:+ Js.LF
            +:+ "  Segment N1 at position 4 (loop L1): Unrecognized segment ID" +:+ Js.LF
            +:+ "    Element 66: Mandatory data element missing [value: "
            +:+ Js.DQUOTE +:+ "XX" +:+ Js.DQUOTE +:+ "]")],
        Ok (mkWalkState EmptyString EmptyString [] None "A" (Some "55") (heap openState))).
Proof.
  assert (walk bodilessFile (Some "*") openSegments initialState
          = ([PublishDataTags [("997 Acked Group Control Number", "55")]], Ok openState))
    as Hwalk by (vm_compute; reflexivity).
  split; [exact Hwalk|]. split; [reflexivity|].
  split; [discriminate|].
  exact (C7_AK5_closes_transaction bodilessFile (Some "*") openSegments _ openState
           "AK5*R" Hwalk eq_refl ltac:(discriminate)).
Defined.

(** C8 at an AK4 segment opening a walk. *)
Lemma C8_AK4_without_current_segment_witness :
  Js.startsWith "AK4" "AK4*2*66*1*XX" = true
  /\ currentSegment initialState = None
  /\ step bodilessFile (Some "*") initialState "AK4*2*66*1*XX" = ([], Ok initialState).
Proof.
  split; [reflexivity|]. split; [reflexivity|].
  exact (proj1 (proj2 (C8_AK4_without_current_segment bodilessFile (Some "*"))
                  initialState "AK4*2*66*1*XX" [] eq_refl eq_refl)).
Defined.

(** C9 at an acknowledgment whose AK9 code is a lower-case a. *)
Lemma C9_case_insensitive_latch_witness :
  ak9Codes (sepOf lowerCaseBody) (segmentsOf lowerCaseBody) = ["a"]
  /\ classify (fileOf "ack.edi" lowerCaseBody)
     = Some (mkResult true (fileOf "ack.edi" lowerCaseBody) (Some "A"))
  /\ dispositionOf [fileOf "ack.edi" lowerCaseBody]
     = Some (ReturnSuccess [fileOf "ack.edi" lowerCaseBody]).
Proof.
  assert (ak9Codes (sepOf lowerCaseBody) (segmentsOf lowerCaseBody) = ["a"]) as Hcodes
    by (vm_compute; reflexivity).
  assert (classify (fileOf "ack.edi" lowerCaseBody)
          = Some (mkResult true (fileOf "ack.edi" lowerCaseBody) (Some "A"))) as Hc
    by (vm_compute; reflexivity).
  split; [exact Hcodes|]. split; [exact Hc|].
  refine (proj2 (proj2 (proj2 (proj2
            (C9_case_insensitive_latch (fileOf "ack.edi" lowerCaseBody)))
            lowerCaseBody _ eq_refl Hc eq_refl _))).
  rewrite Hcodes. repeat constructor.
Defined.

(** C10 at an AK5 segment opening a walk. *)
Lemma C10_AK5_without_transaction_witness :
  Js.startsWith "AK5" "AK5*A" = true
  /\ currentDocType initialState = EmptyString
  /\ step bodilessFile (Some "*") initialState "AK5*A" = ([], Ok initialState).
Proof.
  split; [reflexivity|]. split; [reflexivity|].
  exact (C10_AK5_without_transaction bodilessFile (Some "*") initialState "AK5*A"
           eq_refl eq_refl).
Defined.

(** ** Examples *)

Example split_demo :
  Js.split "a~b~~c~" (Some "~") = ["a"; "b"; EmptyString; "c"; EmptyString]
  /\ Js.split "aaa" (Some "aa") = [EmptyString; "a"]
  /\ Js.split "abc" None = ["abc"]
  /\ Js.split ("a~" +:+ Js.LF +:+ "b~" +:+ Js.LF) (Some ("~" +:+ Js.LF))
     = ["a"; "b"; EmptyString].
Proof. repeat split; reflexivity. Qed.

Example indexOf_demo :
  Js.indexOf "xxISAyyISA" "ISA" = 2%Z /\ Js.indexOf "IS A" "ISA" = (-1)%Z.
Proof. split; reflexivity. Qed.

Example substr_demo :
  Js.substr "abcdef" 2 3 = "cde" /\ Js.substr "abcdef" 4 106 = "ef".
Proof. split; reflexivity. Qed.

Example trim_demo : Js.trim (Js.LF +:+ " a b " +:+ Js.CR) = "a b".
Proof. reflexivity. Qed.

Example isaHeader_delimiters :
  String.length isaHeader = 106
  /\ parseDelimiters isaHeader = mkDelimiters (Some "*") (Some ":") (Some "~").
Proof. split; vm_compute; reflexivity. Qed.

(** A batch of no file is skipped. *)
Example empty_batch : run [] = ([], Ok (ReturnSkipped [])).
Proof. reflexivity. Qed.

(** One accepted acknowledgment and one text file: Success with the
    acknowledgment alone. *)
Example accepted_batch :
  dispositionOf [fileOf "notes.txt" "hello"; fileOf "ack.edi" acceptedBody]
  = Some (ReturnSuccess [fileOf "ack.edi" acceptedBody]).
Proof. vm_compute. reflexivity. Qed.

(** One rejected acknowledgment with a segment error and an element error
    under it: the events, in order, and the disposition. *)
Example rejected_batch :
  run [fileOf "ack.edi" rejectedBody] =
    ([ PublishDataTags
         [ ("997 Ack File Interchange Control Number", "000000001");
           ("997 Ack File Group Control Number", "77") ];
       PublishDataTags [ ("997 Acked Group Control Number", "55") ];
       LogError
         ("Transaction 850 #0007: Rejected" +:+ Js.LF
          +:+ "  Segment N1 at position 4 (loop L1): Unrecognized segment ID" +:+ Js.LF
          +:+ "    Element 66: Mandatory data element missing [value: "
          +:+ Js.DQUOTE +:+ "XX" +:+ Js.DQUOTE +:+ "]");
       LogInfo "Functional Group Result for 55: Rejected - 0/1 transactions accepted";
       LogError "997 acknowledging Group Control Number 55 Not Accepted (AK901=R) in file ack.edi" ],
     Ok (ReturnError [fileOf "ack.edi" rejectedBody])).
Proof. vm_compute. reflexivity. Qed.

(** A code that names a member of [Object.prototype]. *)
Example inherited_code :
  segmentErrorDesc "constructor" = VProto "constructor"
  /\ showVal (segmentErrorDesc "constructor") = "function Object() { [native code] }".
Proof. split; vm_compute; reflexivity. Qed.

(** * Further properties *)

(** ** Splitting on one character *)

Lemma chars_rev_app (a b : string) :
  list_ascii_of_string (String.rev_app a b)
  = rev (list_ascii_of_string a) ++ list_ascii_of_string b.
Proof.
  revert b. induction a as [|x a IH]; intros b; cbn; [reflexivity|].
  rewrite IH. cbn. now rewrite <- app_assoc.
Qed.

Lemma freeOf_rev (c : ascii) (cur : string) : freeOf c cur -> freeOf c (String.rev cur).
Proof.
  unfold freeOf, String.rev. rewrite chars_rev_app, app_nil_r.
  intros H Hin. apply H. now apply in_rev.
Qed.

Lemma startsWith_char (c x : ascii) (s : string) :
  Js.startsWith (String c EmptyString) (String x s) = Ascii.eqb c x.
Proof. cbn. now destruct (Ascii.eqb c x). Qed.

(** No piece of a split on one character has that character. *)
Lemma splitAux_freeOf (c : ascii) (s cur : string) :
  freeOf c cur ->
  Forall (freeOf c) (Js.splitAux (String c EmptyString) 0 cur s).
Proof.
  revert cur. induction s as [|x s IH]; intros cur Hcur.
  - cbn. constructor; [now apply freeOf_rev | constructor].
  - cbn [Js.splitAux]. rewrite startsWith_char.
    destruct (Ascii.eqb_spec c x) as [->|Hne].
    + constructor; [now apply freeOf_rev|]. cbn. apply IH. intros [].
    + apply IH. intros [H|H]; [congruence | now apply Hcur].
Qed.

Lemma rev_app_snoc (a b : string) :
  String.rev_app a b = String.rev a +:+ b.
Proof.
  unfold String.rev. revert b. induction a as [|x a IH]; intros b; cbn; [reflexivity|].
  rewrite IH, (IH (String x EmptyString)), append_assoc. reflexivity.
Qed.

(** Splitting a piece free of the separator, followed by the rest. *)
Lemma splitAux_piece (c : ascii) (p rest cur : string) :
  freeOf c p ->
  Js.splitAux (String c EmptyString) 0 cur (p +:+ String c rest)
  = (String.rev cur +:+ p) :: Js.splitAux (String c EmptyString) 0 EmptyString rest.
Proof.
  revert cur. induction p as [|x p IH]; intros cur Hp.
  - cbn [String.append Js.splitAux]. rewrite startsWith_char, Ascii.eqb_refl.
    now rewrite append_empty_r.
  - cbn [String.append Js.splitAux]. rewrite startsWith_char.
    destruct (Ascii.eqb_spec c x) as [->|Hne].
    + exfalso. apply Hp. now left.
    + rewrite IH by (intros H; apply Hp; now right).
      f_equal. unfold String.rev. cbn. rewrite rev_app_snoc.
      now rewrite append_assoc.
Qed.

Lemma splitAux_last (c : ascii) (p cur : string) :
  freeOf c p ->
  Js.splitAux (String c EmptyString) 0 cur p = [String.rev cur +:+ p].
Proof.
  revert cur. induction p as [|x p IH]; intros cur Hp.
  - cbn. now rewrite append_empty_r.
  - cbn [Js.splitAux]. rewrite startsWith_char.
    destruct (Ascii.eqb_spec c x) as [->|Hne].
    + exfalso. apply Hp. now left.
    + rewrite IH by (intros H; apply Hp; now right).
      f_equal. unfold String.rev. cbn. rewrite rev_app_snoc.
      now rewrite append_assoc.
Qed.

(** Splitting what [join] built gives the pieces back. *)
Lemma split_joinWith (c : ascii) (pieces : list string) :
  pieces <> [] ->
  Forall (freeOf c) pieces ->
  Js.split (joinWith (String c EmptyString) pieces) (Some (String c EmptyString))
  = pieces.
Proof.
  intros Hne Hall. cbn [Js.split].
  induction pieces as [|p rest IH]; [congruence|].
  apply Forall_cons in Hall as [Hp Hrest].
  destruct rest as [|q rest].
  - cbn [joinWith]. now rewrite splitAux_last.
  - change (joinWith (String c EmptyString) (p :: q :: rest))
      with (p +:+ String c (joinWith (String c EmptyString) (q :: rest))).
    rewrite splitAux_piece by assumption. cbn. f_equal.
    apply IH; [discriminate | assumption].
Qed.

(** ** Field access and delimiters *)

Lemma joinWith_empty (c : ascii) (pieces : list string) :
  joinWith (String c EmptyString) pieces = EmptyString ->
  pieces = [] \/ pieces = [EmptyString].
Proof.
  destruct pieces as [|p [|q rest]]; cbn [joinWith]; intros H.
  - now left.
  - right. now rewrite H.
  - destruct p; discriminate.
Qed.

(** X1: field access undoes the construction of a segment.  For fields
    free of the separator character, [safeSplit] of the joined fields at an
    index answers the field at that index, or the empty string when the
    index is past the last field; without an index it answers the fields
    themselves, unless the joined text is empty. *)
Theorem safeSplit_of_joined_fields (c : ascii) (pieces : list string) (i : nat) :
  Forall (freeOf c) pieces ->
  safeSplit (Some (joinWith (String c EmptyString) pieces))
    (Some (String c EmptyString)) (Some i)
  = Field (Js.orElse (pieces !! i) EmptyString)
  /\ (joinWith (String c EmptyString) pieces <> EmptyString ->
      safeSplit (Some (joinWith (String c EmptyString) pieces))
        (Some (String c EmptyString)) None
      = Fields pieces).
Proof.
  intros Hall. unfold safeSplit.
  destruct (joinWith (String c EmptyString) pieces) as [|x s] eqn:Hj.
  - split; [|congruence].
    apply joinWith_empty in Hj as [-> | ->]; [reflexivity|].
    destruct i as [|i]; [reflexivity|]. now destruct i.
  - assert (pieces <> []) as Hne by (intros ->; discriminate).
    rewrite <- Hj, (split_joinWith c pieces Hne Hall). now split.
Qed.

Lemma index_none_iff (s : string) (i : nat) :
  Js.index s i = None <-> String.length s <= i.
Proof.
  unfold Js.index. revert i. induction s as [|x s IH]; intros i.
  - destruct i; cbn; split; intros; first [reflexivity | lia].
  - destruct i as [|i]; cbn.
    + split; [discriminate | lia].
    + rewrite IH. lia.
Qed.

Lemma index_some_char (s t : string) (i : nat) :
  Js.index s i = Some t -> exists ch, t = String ch EmptyString.
Proof.
  unfold Js.index. destruct (String.get i s); [|discriminate].
  intros [= <-]. eauto.
Qed.

(** X2: the resolver never fails, and each delimiter is [undefined]
    exactly when its offset is past the end of the input.  A terminator, when
    there is one, is the character at offset 105, alone or followed by the
    character at offset 106 when that one is a line feed or a carriage
    return. *)
Theorem parseDelimiters_bounds (edi : string) :
  (elementSep (parseDelimiters edi) = None <-> String.length edi <= 3)
  /\ (subElementSep (parseDelimiters edi) = None <-> String.length edi <= 104)
  /\ (segmentTerminator (parseDelimiters edi) = None <-> String.length edi <= 105)
  /\ (forall t,
        segmentTerminator (parseDelimiters edi) = Some t ->
        exists c,
          Js.index edi 105 = Some c
          /\ (t = c /\ Js.index edi 106 <> Some Js.LF /\ Js.index edi 106 <> Some Js.CR
              \/ exists n, Js.index edi 106 = Some n
                           /\ (n = Js.LF \/ n = Js.CR) /\ t = c +:+ n)).
Proof.
  unfold parseDelimiters. cbn [elementSep subElementSep segmentTerminator].
  split; [apply index_none_iff|]. split; [apply index_none_iff|].
  destruct (Js.index edi 106) as [n|] eqn:H106.
  - assert (exists c, Js.index edi 105 = Some c) as [c Hc].
    { destruct (Js.index edi 105) eqn:H105; [eauto|].
      apply index_none_iff in H105.
      assert (Js.index edi 106 = None) by (apply index_none_iff; lia). congruence. }
    rewrite Hc.
    assert (105 < String.length edi) as Hlen.
    { destruct (le_lt_dec (String.length edi) 105) as [Hle|]; [|assumption].
      apply index_none_iff in Hle. congruence. }
    destruct (String.eqb_spec n Js.LF) as [->|HLF];
      [|destruct (String.eqb_spec n Js.CR) as [->|HCR]]; cbn [orb appendTo Js.show].
    + split; [split; [discriminate | lia]|].
      intros t [= <-]. exists c. split; [reflexivity|]. right. eauto.
    + split; [split; [discriminate | lia]|].
      intros t [= <-]. exists c. split; [reflexivity|]. right. eauto.
    + split; [split; [discriminate | lia]|].
      intros t [= <-]. exists c. split; [reflexivity|]. left.
      repeat split; congruence.
  - split; [apply index_none_iff|].
    intros t Ht. exists t. split; [exact Ht|]. left. repeat split; discriminate.
Qed.

(** ** The tokenizer *)

Lemma trim_empty_iff (s : string) :
  (0 <? String.length (Js.trim s))%nat = true -> Js.trim s <> EmptyString /\ s <> EmptyString.
Proof.
  intros H. split.
  - intros Heq. rewrite Heq in H. discriminate.
  - intros ->. discriminate.
Qed.

(** X3: every segment the classifier walks is one of the pieces of the
    content between terminators, is not blank, and does not contain the
    terminator, which inside the classifier is a single character. *)
Theorem segments_well_formed (content seg : string) :
  In seg (segmentsOf content) ->
  In seg (Js.split content (segmentTerminator (resolveDelimiters content)))
  /\ Js.trim seg <> EmptyString
  /\ seg <> EmptyString
  /\ (forall t,
        segmentTerminator (resolveDelimiters content) = Some t ->
        exists c, t = String c EmptyString /\ freeOf c seg).
Proof.
  unfold segmentsOf, tokenize. rewrite filter_In. intros [Hin Htrim].
  apply trim_empty_iff in Htrim as [Ht Hs].
  split; [exact Hin|]. split; [exact Ht|]. split; [exact Hs|].
  intros t Hterm. rewrite Hterm in Hin.
  pose proof Hterm as Hidx. rewrite resolveDelimiters_terminator in Hidx.
  apply index_some_char in Hidx as [c ->]. exists c. split; [reflexivity|].
  cbn [Js.split] in Hin.
  pose proof (splitAux_freeOf c content EmptyString ltac:(intros [])) as Hall.
  rewrite List.Forall_forall in Hall. now apply Hall.
Qed.

(** X3 at the ST segment of the accepted acknowledgment. *)
Lemma segments_well_formed_witness :
  In "ST*997*0001" (segmentsOf acceptedBody)
  /\ Js.trim "ST*997*0001" <> EmptyString
  /\ segmentTerminator (resolveDelimiters acceptedBody) = Some "~"
  /\ freeOf "~" "ST*997*0001".
Proof.
  assert (In "ST*997*0001" (segmentsOf acceptedBody)) as Hin.
  { apply list_elem_of_In.
    apply (bool_decide_unpack ("ST*997*0001" ∈ segmentsOf acceptedBody)).
    vm_compute. exact I. }
  destruct (segments_well_formed acceptedBody "ST*997*0001" Hin)
    as (_ & Htrim & _ & Hfree).
  split; [exact Hin|]. split; [exact Htrim|].
  assert (segmentTerminator (resolveDelimiters acceptedBody) = Some "~") as Hterm
    by (vm_compute; reflexivity).
  split; [exact Hterm|].
  destruct (Hfree _ Hterm) as (c & Hc & Hf). injection Hc as <-. exact Hf.
Defined.

(** X1 at the AK4 segment of the rejected acknowledgment. *)
Lemma safeSplit_of_joined_fields_witness :
  Forall (freeOf "*") ["AK4"; "2"; "66"; "1"; "XX"]
  /\ safeSplit (Some "AK4*2*66*1*XX") (Some "*") (Some 2) = Field "66"
  /\ safeSplit (Some "AK4*2*66*1*XX") (Some "*") (Some 7) = Field EmptyString.
Proof.
  assert (Forall (freeOf "*") ["AK4"; "2"; "66"; "1"; "XX"]) as Hall.
  { repeat constructor; unfold freeOf; cbn; intros H;
      repeat (destruct H as [H|H]; [discriminate|]); exact H. }
  split; [exact Hall|].
  split.
  - exact (proj1 (safeSplit_of_joined_fields "*" ["AK4"; "2"; "66"; "1"; "XX"] 2 Hall)).
  - exact (proj1 (safeSplit_of_joined_fields "*" ["AK4"; "2"; "66"; "1"; "XX"] 7 Hall)).
Defined.

(** ** More on the walker *)

Section WalkerMore.

Variable sourceFile : File.
Variable elemSep : option string.

Lemma step_AK1 (st : WalkState) (seg : string) :
  Js.startsWith "AK1" seg = true ->
  step sourceFile elemSep st seg =
    ([ackedGroupTag elemSep seg],
     Ok (mkWalkState (currentDocType st) (currentControlNumber st)
           (currentSegmentErrors st) (currentSegment st) (overallStatus st)
           (Some (elementOr (fields (safeSplit (Some seg) elemSep None)) 2 EmptyString))
           (heap st))).
Proof. intros H. unfold step. rewrite H. reflexivity. Qed.

Lemma step_AK2 (st : WalkState) (seg : string) :
  Js.startsWith "AK2" seg = true ->
  step sourceFile elemSep st seg =
    ([],
     Ok (mkWalkState
           (elementOr (fields (safeSplit (Some seg) elemSep None)) 1 EmptyString)
           (elementOr (fields (safeSplit (Some seg) elemSep None)) 2 EmptyString)
           [] None (overallStatus st) (ak102 st) (heap st))).
Proof. intros H. unfold step. tag_excl H. rewrite H. reflexivity. Qed.

Lemma step_AK3 (st : WalkState) (seg : string) :
  Js.startsWith "AK3" seg = true ->
  step sourceFile elemSep st seg =
    ([],
     Ok (mkWalkState (currentDocType st) (currentControlNumber st)
           (currentSegmentErrors st ++ [length (heap st)])
           (Some (length (heap st))) (overallStatus st) (ak102 st)
           (heap st ++ [segmentErrorOf elemSep seg]))).
Proof. intros H. unfold step. tag_excl H. rewrite H. reflexivity. Qed.

Lemma step_AK4_current (st : WalkState) (seg : string) (r : nat) :
  Js.startsWith "AK4" seg = true ->
  currentSegment st = Some r ->
  step sourceFile elemSep st seg =
    ([],
     Ok (mkWalkState (currentDocType st) (currentControlNumber st)
           (currentSegmentErrors st) (Some r) (overallStatus st) (ak102 st)
           (alter (fun segErr => withElementError segErr (elementErrorOf elemSep seg))
              r (heap st)))).
Proof. intros H Hc. rewrite (step_AK4 _ _ _ _ H), Hc. reflexivity. Qed.

Lemma step_other (st : WalkState) (seg : string) :
  isAckSegment seg = false ->
  step sourceFile elemSep st seg = ([], Ok st).
Proof.
  unfold isAckSegment. intros H.
  repeat (apply orb_false_elim in H as [H ?]).
  unfold step.
  repeat match goal with
         | Hf : Js.startsWith ?p seg = false |- _ => rewrite Hf; clear Hf
         end.
  reflexivity.
Qed.

(** X4: the segments that start with none of the six tags are
    transparent: a walk emits the same events and ends in the same state
    as the walk of the acknowledgment segments alone. *)
Theorem walk_ignores_other_segments (segs : list string) (st : WalkState) :
  walk sourceFile elemSep segs st
  = walk sourceFile elemSep (List.filter isAckSegment segs) st.
Proof.
  revert st. induction segs as [|seg rest IH]; intros st; [reflexivity|].
  cbn [List.filter]. destruct (isAckSegment seg) eqn:Hack.
  - cbn [walk]. destruct (step_ok sourceFile elemSep st seg) as (e1 & st1 & H1).
    rewrite H1, !bind_ok. now rewrite IH.
  - rewrite (walk_cons _ _ _ _ _ _ _ (step_other st seg Hack)).
    rewrite <- IH. now destruct (walk sourceFile elemSep rest st).
Qed.

(** The references of the array are pairwise distinct. *)
Lemma step_refs_NoDup (st : WalkState) (seg : string) evs st' :
  state_ok st ->
  NoDup (currentSegmentErrors st) ->
  step sourceFile elemSep st seg = (evs, Ok st') ->
  NoDup (currentSegmentErrors st').
Proof.
  intros [Hrefs _] Hnd. unfold step.
  repeat match goal with
         | |- context [if Js.startsWith ?p seg then _ else _] =>
             destruct (Js.startsWith p seg)
         end.
  - simpl. now intros [= <- <-].
  - unfold ret. intros [= <- <-]. constructor.
  - unfold ret. intros [= <- <-]. cbn [currentSegmentErrors].
    apply NoDup_app. split; [exact Hnd|]. split; [|apply NoDup_singleton].
    intros r Hr Hin. apply list_elem_of_singleton in Hin as ->.
    rewrite Forall_forall in Hrefs. specialize (Hrefs _ Hr). lia.
  - destruct (currentSegment st); unfold ret; now intros [= <- <-].
  - unfold flushTransaction. destruct (currentDocType st).
    + unfold ret. now intros [= <- <-].
    + destruct (String.eqb _ "R"); simpl; intros [= <- <-]; constructor.
  - simpl. destruct (negb _ && _); simpl; now intros [= <- <-].
  - unfold ret. now intros [= <- <-].
Qed.

Lemma walk_refs_NoDup (segs : list string) (st : WalkState) evs st' :
  state_ok st ->
  NoDup (currentSegmentErrors st) ->
  walk sourceFile elemSep segs st = (evs, Ok st') ->
  NoDup (currentSegmentErrors st').
Proof.
  revert st evs. induction segs as [|seg rest IH]; intros st evs Hok Hnd.
  - simpl. unfold ret. now intros [= <- <-].
  - destruct (step_ok sourceFile elemSep st seg) as (e1 & st1 & H1).
    rewrite (walk_cons _ _ _ _ _ _ _ H1).
    destruct (walk_ok sourceFile elemSep rest st1) as (e2 & st2 & H2).
    rewrite H2. simpl. intros [= <- <-].
    eapply IH; [| |exact H2].
    + eapply step_state_ok; eassumption.
    + eapply step_refs_NoDup; eassumption.
Qed.

Lemma omap_lookup_app (hp extra : list SegmentError) (refs : list nat) :
  Forall (fun r => r < length hp) refs ->
  omap (fun r => (hp ++ extra) !! r) refs = omap (fun r => hp !! r) refs.
Proof.
  induction 1 as [|r refs Hr _ IH]; [reflexivity|].
  cbn [omap list_omap]. now rewrite IH, lookup_app_l.
Qed.

Lemma omap_lookup_alter (f : SegmentError -> SegmentError) (hp : list SegmentError)
    (r : nat) (refs : list nat) :
  r ∉ refs ->
  omap (fun i => alter f r hp !! i) refs = omap (fun i => hp !! i) refs.
Proof.
  induction refs as [|i refs IH]; intros Hr; [reflexivity|].
  apply not_elem_of_cons in Hr as [Hne Hr].
  cbn [omap list_omap]. rewrite IH by assumption.
  now rewrite list_lookup_alter_ne.
Qed.

(** X5: at any point of a walk, an AK3 segment emits nothing and appends
    one segment error, the one read from its elements with its code
    described through the table, after those already accumulated; that
    segment error becomes the current one and has no element error yet.
    The other variables keep their values. *)
Theorem AK3_appends_segment_error (before : list string) (evs : list Event)
    (st : WalkState) (seg : string) :
  walk sourceFile elemSep before initialState = (evs, Ok st) ->
  Js.startsWith "AK3" seg = true ->
  exists st' r,
    step sourceFile elemSep st seg = ([], Ok st')
    /\ accumulated st' = accumulated st ++ [segmentErrorOf elemSep seg]
    /\ currentSegment st' = Some r
    /\ heap st' !! r = Some (segmentErrorOf elemSep seg)
    /\ currentDocType st' = currentDocType st
    /\ currentControlNumber st' = currentControlNumber st
    /\ overallStatus st' = overallStatus st
    /\ ak102 st' = ak102 st.
Proof.
  intros Hwalk Htag.
  assert (state_ok st) as [Hrefs _]
    by (eapply walk_state_ok; [apply initialState_ok | exact Hwalk]).
  do 2 eexists. split; [apply (step_AK3 st seg Htag)|].
  cbn [currentSegment heap currentDocType currentControlNumber overallStatus ak102].
  split; [|split; [reflexivity|]; split; [|repeat split]].
  - unfold accumulated. cbn [currentSegmentErrors heap].
    rewrite omap_app, omap_lookup_app by assumption.
    cbn [omap list_omap]. rewrite lookup_app_r by lia.
    now rewrite Nat.sub_diag.
  - rewrite lookup_app_r by lia. now rewrite Nat.sub_diag.
Qed.

(** X6: at any point of a walk where there is a current segment error, it
    is the last of the accumulated ones, and an AK4 segment emits nothing and
    appends its element error to that one alone: the segment errors before
    it are as they were. *)
Theorem AK4_attaches_to_last_segment_error (before : list string) (evs : list Event)
    (st : WalkState) (seg : string) (r : nat) :
  walk sourceFile elemSep before initialState = (evs, Ok st) ->
  Js.startsWith "AK4" seg = true ->
  currentSegment st = Some r ->
  exists st' earlier cur,
    step sourceFile elemSep st seg = ([], Ok st')
    /\ accumulated st = earlier ++ [cur]
    /\ accumulated st'
       = earlier ++ [withElementError cur (elementErrorOf elemSep seg)]
    /\ currentSegment st' = Some r
    /\ currentDocType st' = currentDocType st
    /\ currentControlNumber st' = currentControlNumber st
    /\ overallStatus st' = overallStatus st
    /\ ak102 st' = ak102 st.
Proof.
  intros Hwalk Htag Hcur.
  assert (state_ok st) as Hok
    by (eapply walk_state_ok; [apply initialState_ok | exact Hwalk]).
  assert (NoDup (currentSegmentErrors st)) as Hnd
    by (eapply walk_refs_NoDup; [apply initialState_ok | constructor | exact Hwalk]).
  destruct Hok as [Hrefs Hlast]. rewrite Hcur in Hlast.
  apply last_Some in Hlast as [refs Hsplit].
  rewrite Hsplit in Hrefs, Hnd.
  apply Forall_app in Hrefs as [Hrefs Hr].
  rewrite Forall_singleton in Hr.
  apply NoDup_app in Hnd as (_ & Hfresh & _).
  assert (r ∉ refs) as Hnotin
    by (intros Hin; apply (Hfresh r Hin); now apply list_elem_of_singleton).
  destruct (lookup_lt_is_Some_2 (heap st) r Hr) as [cur Hlk].
  exists (mkWalkState (currentDocType st) (currentControlNumber st)
            (currentSegmentErrors st) (Some r) (overallStatus st) (ak102 st)
            (alter (fun segErr => withElementError segErr (elementErrorOf elemSep seg))
               r (heap st))),
    (omap (fun i => heap st !! i) refs), cur.
  split; [apply (step_AK4_current st seg r Htag Hcur)|].
  unfold accumulated. cbn [currentSegmentErrors heap]. rewrite Hsplit, !omap_app.
  cbn [omap list_omap]. rewrite Hlk.
  split; [reflexivity|]. split; [|repeat split].
  rewrite omap_lookup_alter by assumption.
  now rewrite list_lookup_alter_eq, Hlk.
Qed.

(** X7: an AK2 segment drops whatever the previous transaction had
    accumulated.  From any state, an AK2 segment with a document type
    followed by an AK5 segment emits one message, the header alone, with no
    segment error of the transaction left open before. *)
Theorem AK2_discards_open_transaction (st : WalkState) (seg2 seg5 : string) :
  Js.startsWith "AK2" seg2 = true ->
  Js.startsWith "AK5" seg5 = true ->
  elementOr (fields (safeSplit (Some seg2) elemSep None)) 1 EmptyString <> EmptyString ->
  let docType := elementOr (fields (safeSplit (Some seg2) elemSep None)) 1 EmptyString in
  let controlNumber := elementOr (fields (safeSplit (Some seg2) elemSep None)) 2 EmptyString in
  let ackCode := firstElement elemSep seg5 in
  let message := transactionReport docType controlNumber (transactionAckDesc ackCode) [] in
  walk sourceFile elemSep [seg2; seg5] st
  = ([if String.eqb ackCode "R" then LogError message else LogInfo message],
     Ok (resetTransaction st)).
Proof.
  intros H2 H5 Hdoc docType controlNumber ackCode message.
  rewrite (walk_cons _ _ _ _ _ _ _ (step_AK2 st seg2 H2)).
  cbn [walk]. rewrite (step_AK5 _ _ _ _ H5). fold ackCode docType controlNumber.
  unfold flushTransaction. cbn [currentDocType].
  rewrite flushMessage_spec by (split; cbn; [constructor | exact I]).
  unfold accumulated.
  cbn [currentSegmentErrors currentDocType currentControlNumber omap list_omap
       overallStatus ak102 heap].
  fold message. unfold resetTransaction.
  assert (docType <> EmptyString) as Hd by exact Hdoc.
  destruct docType; [congruence|].
  destruct (String.eqb ackCode "R"); reflexivity.
Qed.

End WalkerMore.

(** ** What a walk emits *)

Section WalkEvents.

Variable sourceFile : File.
Variable elemSep : option string.

Lemma startsWith_app (p s : string) : Js.startsWith p (p +:+ s) = true.
Proof. apply startsWith_spec. now exists s. Qed.

Lemma step_events (st : WalkState) (seg : string) evs st' :
  state_ok st ->
  step sourceFile elemSep st seg = (evs, Ok st') ->
  List.filter isPublish evs
  = (if Js.startsWith "AK1" seg then [ackedGroupTag elemSep seg] else [])
  /\ length (List.filter isGroupError evs)
     = (if String.eqb (overallStatus st) "A"
           && negb (String.eqb (overallStatus st') "A")
        then 1 else 0)
  /\ (String.eqb (overallStatus st) "A" = false ->
      overallStatus st' = overallStatus st).
Proof.
  intros Hok.
  assert (forall s : WalkState,
            String.eqb (overallStatus s) "A"
            && negb (String.eqb (overallStatus s) "A") = false) as Hsame
    by (intros s; now destruct (String.eqb (overallStatus s) "A")).
  destruct (Js.startsWith "AK1" seg) eqn:H1.
  { rewrite (step_AK1 _ _ _ _ H1). intros [= <- <-].
    cbn [overallStatus]. rewrite Hsame. now repeat split. }
  destruct (Js.startsWith "AK2" seg) eqn:H2.
  { rewrite (step_AK2 _ _ _ _ H2). intros [= <- <-].
    cbn [overallStatus]. rewrite Hsame. now repeat split. }
  destruct (Js.startsWith "AK3" seg) eqn:H3.
  { rewrite (step_AK3 _ _ _ _ H3). intros [= <- <-].
    cbn [overallStatus]. rewrite Hsame. now repeat split. }
  destruct (Js.startsWith "AK4" seg) eqn:H4.
  { rewrite (step_AK4 _ _ _ _ H4).
    destruct (currentSegment st); unfold ret; intros [= <- <-];
      cbn [overallStatus]; rewrite Hsame; now repeat split. }
  destruct (Js.startsWith "AK5" seg) eqn:H5.
  { rewrite (step_AK5 _ _ _ _ H5). unfold flushTransaction.
    destruct (currentDocType st) eqn:Hdoc.
    - unfold ret. intros [= <- <-]. rewrite Hsame. now repeat split.
    - rewrite (flushMessage_spec st _ Hok).
      destruct (String.eqb _ "R"); cbn; intros [= <- <-];
        cbn [overallStatus]; rewrite Hsame; now repeat split. }
  destruct (Js.startsWith "AK9" seg) eqn:H9.
  { unfold step. rewrite H1, H2, H3, H4, H5, H9.
    fold (firstElement elemSep seg).
    destruct (String.eqb (overallStatus st) "A") eqn:HA.
    - destruct (String.eqb (Js.toUpperCase (firstElement elemSep seg)) "A") eqn:Hup.
      + cbn. intros [= <- <-]. rewrite ?HA. now repeat split.
      + cbn [negb andb]. unfold userLog_info, userLog_error, bind, ret. cbn [app].
        intros [= <- <-]. cbn [overallStatus List.filter isPublish isGroupError].
        cbn.
        assert (String.eqb (firstElement elemSep seg) "A" = false) as ->.
        { apply String.eqb_neq. intros Heq. rewrite Heq in Hup. discriminate. }
        now repeat split.
    - rewrite andb_false_r. cbn. intros [= <- <-]. rewrite ?HA. now repeat split. }
  unfold step. rewrite H1, H2, H3, H4, H5, H9. unfold ret. intros [= <- <-].
  rewrite Hsame. now repeat split.
Qed.

Lemma walk_events (segs : list string) (st : WalkState) evs st' :
  state_ok st ->
  walk sourceFile elemSep segs st = (evs, Ok st') ->
  List.filter isPublish evs
  = map (ackedGroupTag elemSep) (List.filter (Js.startsWith "AK1") segs)
  /\ length (List.filter isGroupError evs)
     = (if String.eqb (overallStatus st) "A"
           && negb (String.eqb (overallStatus st') "A")
        then 1 else 0)
  /\ (String.eqb (overallStatus st) "A" = false ->
      overallStatus st' = overallStatus st).
Proof.
  revert st evs st'. induction segs as [|seg rest IH]; intros st evs st' Hok.
  - cbn. intros [= <- <-]. cbn.
    destruct (String.eqb (overallStatus st) "A"); now repeat split.
  - destruct (step_ok sourceFile elemSep st seg) as (e1 & st1 & H1).
    rewrite (walk_cons _ _ _ _ _ _ _ H1).
    destruct (walk_ok sourceFile elemSep rest st1) as (e2 & st2 & H2).
    rewrite H2. cbn [fst snd]. intros [= <- <-].
    destruct (step_events st seg e1 st1 Hok H1) as (Hp1 & Hg1 & Hs1).
    destruct (IH st1 e2 st2 (step_state_ok _ _ _ _ _ _ Hok H1) H2) as (Hp2 & Hg2 & Hs2).
    rewrite !List.filter_app, length_app, Hp1, Hp2, Hg1, Hg2.
    split; [|split].
    + cbn [List.filter]. now destruct (Js.startsWith "AK1" seg).
    + destruct (String.eqb (overallStatus st) "A") eqn:HA.
      * destruct (String.eqb (overallStatus st1) "A") eqn:HA1; cbn [andb negb].
        -- reflexivity.
        -- rewrite (Hs2 eq_refl), HA1. reflexivity.
      * rewrite (Hs1 eq_refl), HA in Hs2 |- *. cbn [andb]. reflexivity.
    + intros HA. rewrite <- (Hs1 HA). apply Hs2. now rewrite (Hs1 HA).
Qed.

End WalkEvents.

(** The events and the status of a file that passes the gate. *)
Lemma parse997File_recognized (f : File) (content : string) :
  body f = Some content ->
  recognized f = true ->
  exists evs st,
    walk f (sepOf content) (segmentsOf content) initialState = (evs, Ok st)
    /\ parse997File f
       = (envelopeTags content :: evs,
          Ok (mkResult true f (Some (overallStatus st)))).
Proof.
  intros Hb Hrec. rewrite (recognized_content f content Hb) in Hrec.
  apply negb_true_iff in Hrec.
  destruct (walk_status f (sepOf content) (segmentsOf content) initialState)
    as (evs & st & Hw & Hst).
  exists evs, st. split; [exact Hw|].
  rewrite (parse997File_content f content Hb), (parse997Try_content f content Hb).
  rewrite Hrec, Hw. cbn [fst]. now rewrite Hst.
Qed.

Lemma parse997File_unrecognized (f : File) (content : string) :
  body f = Some content ->
  recognized f = false ->
  parse997File f = ([], Ok (notA997 f)).
Proof.
  intros Hb Hrec. rewrite (recognized_content f content Hb) in Hrec.
  apply negb_false_iff in Hrec.
  rewrite (parse997File_content f content Hb), (parse997Try_content f content Hb).
  now rewrite Hrec.
Qed.

(** X8: the tags a file publishes.  A file classified as a 997 publishes the
    two envelope numbers first and then the acknowledged group number of each
    AK1 segment, in order; any other file publishes nothing. *)
Theorem published_tags (f : File) :
  List.filter isPublish (fst (parse997File f))
  = match body f with
    | Some content =>
        if recognized f
        then envelopeTags content
               :: map (ackedGroupTag (sepOf content))
                    (List.filter (Js.startsWith "AK1") (segmentsOf content))
        else []
    | None => []
    end.
Proof.
  destruct (body f) as [content|] eqn:Hb.
  - destruct (recognized f) eqn:Hrec.
    + destruct (parse997File_recognized f content Hb Hrec) as (evs & st & Hw & ->).
      destruct (walk_events f (sepOf content) _ _ _ _ initialState_ok Hw) as (Hp & _).
      cbn [fst List.filter envelopeTags isPublish]. now rewrite Hp.
    + now rewrite (parse997File_unrecognized f content Hb Hrec).
  - now rewrite (parse997File_no_body f Hb).
Qed.

(** X9: the group-level error entry.  A file classified as a 997 gets the
    entry [... Not Accepted ...] exactly once when it is rejected and not at
    all when it is accepted, however many AK9 segments it has. *)
Theorem one_group_error_per_rejected_file (f : File) (content : string) :
  body f = Some content ->
  recognized f = true ->
  length (List.filter isGroupError (fst (parse997File f)))
  = if acceptedFile f then 0 else 1.
Proof.
  intros Hb Hrec.
  destruct (parse997File_recognized f content Hb Hrec) as (evs & st & Hw & Hp).
  destruct (walk_events f (sepOf content) _ _ _ _ initialState_ok Hw) as (_ & Hg & _).
  unfold acceptedFile, classify. rewrite Hp.
  cbn [fst List.filter envelopeTags isGroupError is997 status andb].
  rewrite Hg. cbn [overallStatus initialState]. cbn [String.eqb Ascii.eqb Bool.eqb andb].
  destruct (String.eqb_spec (overallStatus st) "A") as [->|Hne].
  - reflexivity.
  - rewrite bool_decide_eq_false_2 by congruence. reflexivity.
Qed.

(** X9 at the rejected and at the accepted acknowledgment. *)
Lemma one_group_error_per_rejected_file_witness :
  length (List.filter isGroupError (fst (parse997File (fileOf "ack.edi" rejectedBody)))) = 1
  /\ length (List.filter isGroupError (fst (parse997File (fileOf "ack.edi" acceptedBody)))) = 0.
Proof.
  split.
  - exact (one_group_error_per_rejected_file (fileOf "ack.edi" rejectedBody) rejectedBody
             eq_refl ltac:(vm_compute; reflexivity)).
  - exact (one_group_error_per_rejected_file (fileOf "ack.edi" acceptedBody) acceptedBody
             eq_refl ltac:(vm_compute; reflexivity)).
Defined.

(** ** Status and disposition *)

Lemma latched_cases (codes : list string) :
  (latched codes = "A" /\ Forall (fun c => ak9Accepted c = true) codes)
  \/ (In (latched codes) codes /\ ak9Accepted (latched codes) = false).
Proof.
  induction codes as [|c codes IH]; [left; split; [reflexivity | constructor]|].
  rewrite latched_cons. destruct (ak9Accepted c) eqn:Hc.
  - destruct IH as [[HA Hall] | [Hin Hrej]].
    + left. split; [exact HA | now constructor].
    + right. split; [now right | exact Hrej].
  - right. split; [now left | exact Hc].
Qed.

(** X10: a file classified as a 997 counts as accepted exactly when each of
    its AK9 codes passes the latch's test (so also when it has no AK9
    segment); otherwise its status is one of its AK9 codes, one that fails
    the test. *)
Theorem status_of_recognized_file (f : File) (content : string) (r : Result) :
  body f = Some content ->
  classify f = Some r ->
  is997 r = true ->
  let codes := ak9Codes (sepOf content) (segmentsOf content) in
  (acceptedFile f = true <-> Forall (fun c => ak9Accepted c = true) codes)
  /\ (acceptedFile f = false ->
      exists c, status r = Some c /\ In c codes /\ ak9Accepted c = false).
Proof.
  intros Hb Hc Hr codes.
  pose proof (classify_status f content r Hb Hc Hr) as Hst. fold codes in Hst.
  unfold acceptedFile. rewrite Hc, Hr, Hst. cbn [andb].
  destruct (latched_cases codes) as [[HA Hall] | [Hin Hrej]].
  - rewrite HA. split; [now split|]. intros H. discriminate.
  - assert (latched codes <> "A") as Hne by (intros Heq; rewrite Heq in Hrej; discriminate).
    rewrite bool_decide_eq_false_2 by congruence.
    split.
    + split; [discriminate|]. intros Hall. rewrite List.Forall_forall in Hall.
      rewrite (Hall _ Hin) in Hrej. discriminate.
    + intros _. eauto.
Qed.

(** X10 at the rejected acknowledgment. *)
Lemma status_of_recognized_file_witness :
  classify (fileOf "ack.edi" rejectedBody)
  = Some (mkResult true (fileOf "ack.edi" rejectedBody) (Some "R"))
  /\ acceptedFile (fileOf "ack.edi" rejectedBody) = false
  /\ exists c, Some "R" = Some c
               /\ In c (ak9Codes (sepOf rejectedBody) (segmentsOf rejectedBody))
               /\ ak9Accepted c = false.
Proof.
  assert (classify (fileOf "ack.edi" rejectedBody)
          = Some (mkResult true (fileOf "ack.edi" rejectedBody) (Some "R"))) as Hc
    by (vm_compute; reflexivity).
  assert (acceptedFile (fileOf "ack.edi" rejectedBody) = false) as Hacc
    by (vm_compute; reflexivity).
  split; [exact Hc|]. split; [exact Hacc|].
  exact (proj2 (status_of_recognized_file (fileOf "ack.edi" rejectedBody) rejectedBody _
                  eq_refl Hc eq_refl) Hacc).
Defined.

Lemma filter_Permutation_bool (p : File -> bool) (l l' : list File) :
  Permutation l l' -> Permutation (List.filter p l) (List.filter p l').
Proof.
  induction 1 as [|x l l' _ IH|x y l|l l' l'' _ IH1 _ IH2]; cbn [List.filter].
  - constructor.
  - destruct (p x); [now constructor | exact IH].
  - destruct (p x), (p y); try reflexivity. apply perm_swap.
  - now transitivity (List.filter p l').
Qed.

(** X11: the order of the input files does not matter: two batches with
    the same files in another order get dispositions of the same kind, with
    the same files in some order. *)
Theorem disposition_of_permuted_batch (sourceFiles sourceFiles' : list File) :
  Permutation sourceFiles sourceFiles' ->
  exists d d',
    dispositionOf sourceFiles = Some d
    /\ dispositionOf sourceFiles' = Some d'
    /\ sameKind d d' = true
    /\ Permutation (filesOf d) (filesOf d').
Proof.
  intros Hperm. rewrite !dispositionOf_spec. do 2 eexists.
  split; [reflexivity|]. split; [reflexivity|].
  pose proof (filter_Permutation_bool recognized _ _ Hperm) as Hrec.
  pose proof (filter_Permutation_bool rejectedFile _ _ Hperm) as Hrej.
  pose proof (filter_Permutation_bool acceptedFile _ _ Hperm) as Hacc.
  destruct (List.filter recognized sourceFiles) as [|a l] eqn:E1.
  - apply Permutation_nil in Hrec. rewrite Hrec. now split.
  - destruct (List.filter recognized sourceFiles') as [|a' l'] eqn:E1'.
    { symmetry in Hrec. apply Permutation_nil in Hrec. discriminate. }
    destruct (List.filter rejectedFile sourceFiles) as [|b m] eqn:E2.
    + apply Permutation_nil in Hrej. rewrite Hrej. now split.
    + destruct (List.filter rejectedFile sourceFiles') as [|b' m'] eqn:E2'.
      { symmetry in Hrej. apply Permutation_nil in Hrej. discriminate. }
      now split.
Qed.

(** X11 at two files, one rejected and one accepted, in both orders. *)
Lemma disposition_of_permuted_batch_witness :
  dispositionOf [fileOf "a.edi" rejectedBody; fileOf "b.edi" acceptedBody]
  = Some (ReturnError [fileOf "a.edi" rejectedBody])
  /\ exists d',
       dispositionOf [fileOf "b.edi" acceptedBody; fileOf "a.edi" rejectedBody] = Some d'
       /\ sameKind (ReturnError [fileOf "a.edi" rejectedBody]) d' = true
       /\ Permutation [fileOf "a.edi" rejectedBody] (filesOf d').
Proof.
  assert (dispositionOf [fileOf "a.edi" rejectedBody; fileOf "b.edi" acceptedBody]
          = Some (ReturnError [fileOf "a.edi" rejectedBody])) as Hd
    by (vm_compute; reflexivity).
  split; [exact Hd|].
  destruct (disposition_of_permuted_batch
              [fileOf "a.edi" rejectedBody; fileOf "b.edi" acceptedBody]
              [fileOf "b.edi" acceptedBody; fileOf "a.edi" rejectedBody]
              (perm_swap _ _ _)) as (d & d' & H1 & H2 & Hk & Hp).
  rewrite Hd in H1. injection H1 as <-. eauto.
Defined.

(** ** A truncated interchange *)

Lemma startsWith_ST_not_AK9 (s : string) :
  Js.startsWith "ST" s = true -> Js.startsWith "AK9" s = false.
Proof.
  intros H. apply startsWith_spec in H as [t ->]. reflexivity.
Qed.

(** X12: when fewer than 106 characters follow the start of ["ISA"], no
    terminator is resolved and the content is walked as one segment at most;
    such a file is never counted as rejected. *)
Theorem truncated_interchange (f : File) (content : string) :
  body f = Some content ->
  String.length (isaWindow content) <= 105 ->
  segmentTerminator (resolveDelimiters content) = None
  /\ segmentsOf content
     = List.filter (fun s => (0 <? String.length (Js.trim s))%nat) [content]
  /\ rejectedFile f = false.
Proof.
  intros Hb Hlen.
  assert (segmentTerminator (resolveDelimiters content) = None) as Hterm.
  { rewrite resolveDelimiters_terminator. now apply index_none_iff. }
  assert (segmentsOf content
          = List.filter (fun s => (0 <? String.length (Js.trim s))%nat) [content])
    as Hsegs by (unfold segmentsOf, tokenize; now rewrite Hterm).
  split; [exact Hterm|]. split; [exact Hsegs|].
  destruct (classify_some f) as (r & Hc & _ & _).
  unfold rejectedFile. rewrite Hc.
  destruct (is997 r) eqn:Hr; [|reflexivity].
  rewrite (classify_status f content r Hb Hc Hr). cbn [andb].
  assert (recognized f = true) as Hrec by (unfold recognized; now rewrite Hc).
  rewrite (recognized_content f content Hb) in Hrec.
  apply negb_true_iff, orb_false_elim in Hrec as [_ Hst].
  apply negb_false_iff, String.eqb_eq in Hst.
  assert (ak9Codes (sepOf content) (segmentsOf content) = []) as ->.
  { unfold st01Of in Hst. unfold ak9Codes. rewrite Hsegs in Hst |- *.
    cbn [List.filter] in Hst |- *.
    destruct (0 <? String.length (Js.trim content))%nat; [|reflexivity].
    cbn [List.find List.filter] in Hst |- *.
    destruct (Js.startsWith "ST" content) eqn:HST.
    - now rewrite (startsWith_ST_not_AK9 content HST).
    - cbn in Hst. discriminate. }
  reflexivity.
Qed.

(** X12 at a header cut after its first fields. *)
Lemma truncated_interchange_witness :
  String.length (isaWindow "ISA*00*          *00*") <= 105
  /\ segmentsOf "ISA*00*          *00*" = ["ISA*00*          *00*"]
  /\ rejectedFile (fileOf "cut.edi" "ISA*00*          *00*") = false.
Proof.
  destruct (truncated_interchange (fileOf "cut.edi" "ISA*00*          *00*")
              "ISA*00*          *00*" eq_refl ltac:(vm_compute; lia))
    as (_ & Hsegs & Hrej).
  split; [vm_compute; lia|]. split; [|exact Hrej].
  rewrite Hsegs. reflexivity.
Defined.

(** ** Sequential names *)

Module SequentialNamesFacts.
Import SequentialNames.

Lemma chars_append (a b : string) :
  list_ascii_of_string (a +:+ b) = list_ascii_of_string a ++ list_ascii_of_string b.
Proof. induction a as [|x a IH]; cbn; [reflexivity | now rewrite IH]. Qed.

Lemma append_inv_tail (a b c : string) : a +:+ c = b +:+ c -> a = b.
Proof.
  intros H. apply (f_equal list_ascii_of_string) in H.
  rewrite !chars_append in H. apply app_inv_tail in H.
  rewrite <- (string_of_list_ascii_of_string a), <- (string_of_list_ascii_of_string b).
  now rewrite H.
Qed.

Lemma showNat_inj (n m : nat) : showNat n = showNat m -> n = m.
Proof.
  unfold showNat. intros H.
  apply DecimalNat.Unsigned.to_uint_inj.
  apply (f_equal NilEmpty.uint_of_string) in H.
  rewrite !NilEmpty.usu in H. now injection H.
Qed.

Lemma newName_inj (i j : nat) : newName i = newName j -> i = j.
Proof.
  unfold newName. intros H.
  apply (String.app_inj "file_") in H. apply append_inv_tail, showNat_inj in H. lia.
Qed.

Lemma rename_spec (file : gmap string string) (index : nat) :
  rename file index
  = (overwriteEntry index file, Ok (<["file_name" := newName index]> file)).
Proof.
  unfold rename, overwriteEntry.
  destruct (file !! "file_name") as [[|x old]|]; reflexivity.
Qed.

Lemma mapFrom_spec (destinationFiles : list (gmap string string)) (index : nat) :
  mapFrom index destinationFiles
  = (concat (imap (fun i file => overwriteEntry (index + i) file) destinationFiles),
     Ok (imap (fun i file => <["file_name" := newName (index + i)]> file)
           destinationFiles)).
Proof.
  revert index. induction destinationFiles as [|file rest IH]; intros index.
  - reflexivity.
  - cbn [mapFrom]. rewrite rename_spec, bind_ok, IH, bind_ok. cbn [fst snd ret].
    rewrite app_nil_r, !imap_cons, Nat.add_0_r. cbn [concat]. f_equal.
    + do 2 f_equal. apply imap_ext. intros i x _. unfold compose. f_equal. lia.
    + do 2 f_equal. apply imap_ext. intros i x _. unfold compose. do 2 f_equal. lia.
Qed.

Lemma processor_spec (destinationFiles : list (gmap string string)) :
  processor destinationFiles
  = (concat (imap overwriteEntry destinationFiles),
     Ok (imap (fun i file => <["file_name" := newName i]> file) destinationFiles)).
Proof. unfold processor. now rewrite mapFrom_spec. Qed.

(** X13: the post-processor returns as many files as it receives; the
    file at position [i] is the input file at that position with its
    [file_name] set to [file_{i+1}.txt] and every other property as it
    was. *)
Theorem files_are_named_by_position (destinationFiles : list (gmap string string)) :
  exists evs files,
    processor destinationFiles = (evs, Ok files)
    /\ length files = length destinationFiles
    /\ forall i file,
         destinationFiles !! i = Some file ->
         exists file',
           files !! i = Some file'
           /\ file' !! "file_name" = Some (newName i)
           /\ forall key, key <> "file_name" -> file' !! key = file !! key.
Proof.
  rewrite processor_spec. do 2 eexists. split; [reflexivity|].
  split; [apply length_imap|].
  intros i file Hi. eexists. split.
  - rewrite list_lookup_imap, Hi. reflexivity.
  - split; [apply lookup_insert_eq|].
    intros key Hkey. now apply lookup_insert_ne.
Qed.

Lemma omap_imap_total {A B C} (f : B -> option C) (h : nat -> A -> B)
    (g : nat -> C) (l : list A) :
  (forall i x, f (h i x) = Some (g i)) ->
  omap f (imap h l) = imap (fun i _ => g i) l.
Proof.
  revert h g. induction l as [|x l IH]; intros h g Hfg; [reflexivity|].
  rewrite !imap_cons. cbn [omap list_omap]. rewrite Hfg. f_equal.
  apply (IH (h ∘ S) (g ∘ S)). intros i y. apply Hfg.
Qed.

(** X14: the names given are pairwise distinct, whatever the names the
    files came with, and every returned file has one. *)
Theorem new_names_are_distinct (destinationFiles : list (gmap string string)) :
  exists evs files,
    processor destinationFiles = (evs, Ok files)
    /\ NoDup (omap (fun file : gmap string string => file !! "file_name") files)
    /\ length (omap (fun file : gmap string string => file !! "file_name") files)
       = length destinationFiles.
Proof.
  rewrite processor_spec. do 2 eexists. split; [reflexivity|].
  rewrite (omap_imap_total _ _ newName)
    by (intros i x; apply lookup_insert_eq).
  rewrite imap_seq_0. split.
  - apply NoDup_fmap_2; [|apply NoDup_seq].
    intros i j. apply newName_inj.
  - now rewrite length_fmap, length_seq.
Qed.

(** X15: one info entry is logged for each file that comes with a non-empty
    name, in the order of the files, and none for the others. *)
Theorem overwrites_are_logged (destinationFiles : list (gmap string string)) :
  fst (processor destinationFiles) = concat (imap overwriteEntry destinationFiles)
  /\ (Forall (fun file : gmap string string =>
                file !! "file_name" = None \/ file !! "file_name" = Some EmptyString)
        destinationFiles ->
      fst (processor destinationFiles) = []).
Proof.
  rewrite processor_spec. cbn [fst]. split; [reflexivity|].
  intros Hall.
  assert (forall k, concat (imap (fun i file => overwriteEntry (k + i) file)
                              destinationFiles) = []) as H.
  { induction Hall as [|file rest Hf _ IH]; intros k; [reflexivity|].
    rewrite imap_cons. cbn [concat]. unfold overwriteEntry at 1.
    destruct Hf as [-> | ->]; cbn [app].
    - rewrite <- (IH (S k)). f_equal. apply imap_ext. intros i x _.
      unfold compose. f_equal. lia.
    - rewrite <- (IH (S k)). f_equal. apply imap_ext. intros i x _.
      unfold compose. f_equal. lia. }
  exact (H 0).
Qed.

(** X16: the post-processor is idempotent on files: run on its own
    output, it returns that output. *)
Theorem renaming_is_idempotent (destinationFiles : list (gmap string string)) :
  exists evs files evs',
    processor destinationFiles = (evs, Ok files)
    /\ processor files = (evs', Ok files).
Proof.
  rewrite processor_spec. do 3 eexists. split; [reflexivity|].
  rewrite processor_spec. f_equal. f_equal.
  apply list_eq. intros i. rewrite !list_lookup_imap.
  destruct (destinationFiles !! i) as [file|]; [|reflexivity].
  cbn. now rewrite insert_insert_eq.
Qed.

(** The two tests of the script. *)
Example sequential_names_tests :
  processor [] = ([], Ok [])
  /\ processor testFiles
     = ([LogInfo "Overwriting file_name test.txt to file_1.txt"],
        Ok [ {[ "type" := "file"; "body" := "test body"; "file_name" := "file_1.txt" ]};
             {[ "type" := "file"; "body" := "test body 2"; "file_name" := "file_2.txt" ]} ]).
Proof.
  split; [reflexivity | vm_compute; reflexivity].
Qed.

End SequentialNamesFacts.

(** ** The log sink *)

Module UserLogFacts.
Import UserLog.

Lemma getMessages_snoc (log : Messages) (calls : list Call) (c : Call) :
  getMessages log (calls ++ [c]) = call (getMessages log calls) c.
Proof. unfold getMessages. now rewrite fold_left_app. Qed.

(** X17: the log keeps the severities apart and in call order: after any
    sequence of calls on a new log, each array holds the messages logged at
    its severity, in the order of the calls. *)
Theorem messages_by_severity (calls : list Call) :
  info (getMessages new calls) = omap infoOf calls
  /\ warning (getMessages new calls) = omap warningOf calls
  /\ error (getMessages new calls) = omap errorOf calls.
Proof.
  induction calls as [|c calls IH] using rev_ind; [now repeat split|].
  destruct IH as (Hi & Hw & He).
  rewrite getMessages_snoc, !omap_app.
  destruct c; cbn; rewrite Hi, Hw, He, ?app_nil_r; now repeat split.
Qed.

End UserLogFacts.

(** ** Splitting arrays into files *)

Module ArrayToFilesFacts.
Import ArrayToFiles.
Import SequentialNames SequentialNamesFacts.

Lemma lastIndexOfFrom_free (c : ascii) (e : string) (pos found : Z) :
  freeOf c e ->
  lastIndexOfFrom (String c EmptyString) e pos found = found.
Proof.
  revert pos. induction e as [|x e IH]; intros pos Hfree; [reflexivity|].
  cbn [lastIndexOfFrom]. rewrite startsWith_char.
  destruct (Ascii.eqb_spec c x) as [->|Hne].
  - exfalso. apply Hfree. now left.
  - apply IH. intros H. apply Hfree. now right.
Qed.

Lemma lastIndexOfFrom_last (c : ascii) (a e : string) (pos found : Z) :
  freeOf c e ->
  lastIndexOfFrom (String c EmptyString) (a +:+ String c e) pos found
  = (pos + Z.of_nat (String.length a))%Z.
Proof.
  intros Hfree. revert pos found. induction a as [|x a IH]; intros pos found.
  - cbn [String.append lastIndexOfFrom String.length]. rewrite startsWith_char, Ascii.eqb_refl.
    rewrite lastIndexOfFrom_free by assumption. cbn. lia.
  - cbn [String.append lastIndexOfFrom String.length]. rewrite IH. lia.
Qed.

Lemma length_append (a b : string) :
  String.length (a +:+ b) = String.length a + String.length b.
Proof. induction a as [|x a IH]; cbn; [reflexivity | now rewrite IH]. Qed.

Lemma substring_prefix (a b : string) :
  String.substring 0 (String.length a) (a +:+ b) = a.
Proof. induction a as [|x a IH]; cbn; [now destruct b | now rewrite IH]. Qed.

Lemma substring_suffix (a b : string) :
  String.substring (String.length a) (String.length b) (a +:+ b) = b.
Proof.
  induction a as [|x a IH]; cbn; [|exact IH].
  induction b as [|y b IHb]; cbn; [reflexivity | now rewrite IHb].
Qed.

Lemma slice_prefix (a b : string) :
  slice (a +:+ b) 0 (Some (Z.of_nat (String.length a))) = a.
Proof.
  unfold slice. rewrite length_append.
  replace (0 <? 0)%Z with false by reflexivity.
  destruct (Z.ltb_spec (Z.of_nat (String.length a)) 0); [lia|].
  replace (Z.to_nat (Z.min 0 _)) with 0 by lia.
  replace (Z.to_nat _) with (String.length a) by lia.
  apply substring_prefix.
Qed.

Lemma slice_suffix (a b : string) :
  slice (a +:+ b) (Z.of_nat (String.length a)) None = b.
Proof.
  unfold slice. rewrite length_append.
  destruct (Z.ltb_spec (Z.of_nat (String.length a)) 0); [lia|].
  replace (Z.to_nat (Z.min _ _)) with (String.length a) by lia.
  replace (Z.to_nat _) with (String.length b) by lia.
  apply substring_suffix.
Qed.

(** X18: the name of a new file keeps the extension of the original name.
    A name made of a base, a dot and an extension without dot gives the base,
    an underscore, the position of the entry counted from one, and the same
    dot and extension; a name without dot gets the extension [.json]. *)
Theorem new_file_name_keeps_extension (base ext name : string) (idx : nat) :
  (freeOf "." ext ->
   newFileName (base +:+ "." +:+ ext) idx
   = base +:+ "_" +:+ showNat (idx + 1) +:+ "." +:+ ext)
  /\ (freeOf "." name ->
      newFileName name idx = name +:+ "_" +:+ showNat (idx + 1) +:+ ".json").
Proof.
  split; intros Hfree; unfold newFileName, lastIndexOf.
  - change (base +:+ "." +:+ ext) with (base +:+ String "." ext).
    rewrite lastIndexOfFrom_last by assumption.
    destruct (Z.eqb_spec (0 + Z.of_nat (String.length base)) (-1)); [lia|].
    cbn [negb]. rewrite Z.add_0_l, slice_prefix, slice_suffix. reflexivity.
  - rewrite lastIndexOfFrom_free by assumption. reflexivity.
Qed.

(** X18 at the names [orders.v2.json] and [orders]. *)
Lemma new_file_name_keeps_extension_witness :
  freeOf "." "json" /\ freeOf "." "orders"
  /\ newFileName "orders.v2.json" 0 = "orders.v2_1.json"
  /\ newFileName "orders" 2 = "orders_3.json".
Proof.
  assert (freeOf "." "json") as H1
    by (unfold freeOf; cbn; intros H; repeat (destruct H as [H|H]; [discriminate|]); exact H).
  assert (freeOf "." "orders") as H2
    by (unfold freeOf; cbn; intros H; repeat (destruct H as [H|H]; [discriminate|]); exact H).
  split; [exact H1|]. split; [exact H2|]. split.
  - exact (proj1 (new_file_name_keeps_extension "orders.v2" "json" "orders" 0) H1).
  - exact (proj2 (new_file_name_keeps_extension "orders.v2" "json" "orders" 2) H2).
Defined.

(** X19: two entries of one file never get the same name. *)
Theorem new_file_names_differ (name : string) (idx idx' : nat) :
  idx <> idx' -> newFileName name idx <> newFileName name idx'.
Proof.
  unfold newFileName. intros Hne H. apply Hne.
  apply String.app_inj, (String.app_inj "_"), append_inv_tail, showNat_inj in H. lia.
Qed.

(** X19 at the first two entries of [orders.json]. *)
Lemma new_file_names_differ_witness :
  0 <> 1 /\ newFileName "orders.json" 0 <> newFileName "orders.json" 1.
Proof.
  split; [lia|]. apply (new_file_names_differ "orders.json" 0 1). lia.
Defined.

Section HostFacts.

Variable Json : Type.
Variable JSON_parse : option string -> option Json.
Variable arrayElements : Json -> option (list Json).
Variable isObject : Json -> bool.
Variable JSON_stringify : Json -> string.
Variable uuid : nat -> string.

Lemma andThen_ok {A B} (m : Comp A) (k : A -> Comp B) (n : nat) evs a n' :
  m n = (evs, Ok (a, n')) ->
  andThen m k n = (evs ++ fst (k a n'), snd (k a n')).
Proof. intros H. unfold andThen. rewrite H. now destruct (k a n'). Qed.

Lemma andThen_throw {A B} (m : Comp A) (k : A -> Comp B) (n : nat) evs msg :
  m n = (evs, Throw msg) -> andThen m k n = (evs, Throw msg).
Proof. intros H. unfold andThen. now rewrite H. Qed.

Lemma objectsFrom_cons (idx : nat) (obj : Json) (rest : list Json) :
  objectsFrom Json isObject idx (obj :: rest)
  = (if isObject obj then [(idx, obj)] else []) ++ objectsFrom Json isObject (S idx) rest.
Proof.
  unfold objectsFrom. rewrite imap_cons. cbn [List.filter snd]. rewrite Nat.add_0_r.
  assert (imap ((fun i obj0 => (idx + i, obj0)) ∘ S) rest
          = imap (fun i obj0 => (S idx + i, obj0)) rest) as ->
    by (apply imap_ext; intros i x _; unfold compose; f_equal; lia).
  now destruct (isObject obj).
Qed.

Lemma filesFor_cons (name : string) (p : nat * Json) (objs : list (nat * Json)) (n : nat) :
  filesFor Json JSON_stringify uuid name (p :: objs) n
  = mkNewFile (uuid n) "file" (newFileName name (fst p)) "json" "application/json"
      (JSON_stringify (snd p))
    :: filesFor Json JSON_stringify uuid name objs (S n).
Proof.
  unfold filesFor. rewrite imap_cons, Nat.add_0_r. f_equal.
  apply imap_ext. intros i x _. unfold compose. do 2 f_equal. lia.
Qed.

Lemma mapEntries_named (f : File) (name : string) (data : list Json) :
  file_name f = Some name ->
  forall idx n,
    exists evs xs,
      mapEntries Json isObject JSON_stringify uuid f idx data n
      = (evs, Ok (xs, n + length (objectsFrom Json isObject idx data)))
      /\ omap id xs
         = filesFor Json JSON_stringify uuid name (objectsFrom Json isObject idx data) n.
Proof.
  intros Hname. induction data as [|obj rest IH]; intros idx n.
  - exists [], []. cbn. rewrite Nat.add_0_r. now split.
  - destruct (IH (S idx) n) as (e0 & xs0 & Hrun0 & Hout0).
    destruct (IH (S idx) (S n)) as (e1 & xs1 & Hrun1 & Hout1).
    rewrite objectsFrom_cons. cbn [mapEntries]. unfold splitEntry.
    destruct (isObject obj) eqn:Hobj; cbn [negb].
    + rewrite Hname.
      erewrite andThen_ok by (unfold andThen, nextUuid, unit_; reflexivity).
      erewrite andThen_ok by exact Hrun1. cbn [fst snd unit_ app].
      do 2 eexists. split.
      * f_equal. f_equal. f_equal. cbn [app length]. lia.
      * cbn [omap list_omap id]. rewrite filesFor_cons. cbn [fst snd].
        now rewrite Hout1.
    + erewrite andThen_ok by (unfold andThen, log, unit_; reflexivity).
      erewrite andThen_ok by exact Hrun0. cbn [fst snd unit_ app].
      do 2 eexists. split; [reflexivity|].
      cbn [omap list_omap]. exact Hout0.
Qed.

(** X20: a named file whose body parses to an array yields one file per
    object of the array, in order: each is named after the position of its
    object in the array, positions of skipped entries included, carries
    the text of its object, and takes the next identifier of the generator;
    a file that does not parse, or not to an array, yields none. *)
Theorem files_of_one_array (f : File) (name : string) (n : nat) :
  file_name f = Some name ->
  exists evs,
    splitFile Json JSON_parse arrayElements isObject JSON_stringify uuid f n
    = (evs,
       Ok (filesFor Json JSON_stringify uuid name
             (objectsOf Json JSON_parse arrayElements isObject f) n,
           n + length (objectsOf Json JSON_parse arrayElements isObject f))).
Proof.
  intros Hname. unfold splitFile, objectsOf.
  destruct (JSON_parse (body f)) as [data|].
  - destruct (arrayElements data) as [entries|].
    + destruct (mapEntries_named f name entries Hname 0 n) as (evs & xs & Hrun & Hout).
      erewrite andThen_ok by exact Hrun. cbn [fst snd unit_].
      eexists. rewrite Hout. reflexivity.
    + eexists. cbn. rewrite Nat.add_0_r. reflexivity.
  - eexists. cbn. rewrite Nat.add_0_r. reflexivity.
Qed.

Lemma andThen_inv {A B} (m : Comp A) (k : A -> Comp B) (n : nat) evs b n' :
  andThen m k n = (evs, Ok (b, n')) ->
  exists e1 a n1 e2,
    m n = (e1, Ok (a, n1)) /\ k a n1 = (e2, Ok (b, n')) /\ evs = e1 ++ e2.
Proof.
  unfold andThen. destruct (m n) as [e1 [[a n1]|msg]]; [|discriminate].
  destruct (k a n1) as [e2 o] eqn:Hk. intros [= <- ->]. eauto 10.
Qed.

Lemma mapEntries_counter (f : File) (data : list Json) :
  forall idx n evs xs n',
    mapEntries Json isObject JSON_stringify uuid f idx data n = (evs, Ok (xs, n')) ->
    n' = n + length (omap id xs).
Proof.
  induction data as [|obj rest IH]; intros idx n evs xs n'.
  - cbn. intros [= <- <- <-]. cbn. lia.
  - cbn [mapEntries]. intros H.
    apply andThen_inv in H as (e1 & x & n1 & e2 & Hx & H & ->).
    apply andThen_inv in H as (e3 & xs' & n2 & e4 & Hxs & H & ->).
    cbn in H. injection H as <- <- <-.
    apply IH in Hxs. unfold splitEntry in Hx.
    destruct (isObject obj); cbn [negb] in Hx.
    + destruct (file_name f); [|discriminate].
      cbn in Hx. injection Hx as <- <- <-. cbn. lia.
    + cbn in Hx. injection Hx as <- <- <-. cbn. lia.
Qed.

Lemma splitFile_counter (f : File) (n : nat) evs out n' :
  splitFile Json JSON_parse arrayElements isObject JSON_stringify uuid f n
  = (evs, Ok (out, n')) ->
  n' = n + length out.
Proof.
  unfold splitFile. destruct (JSON_parse (body f)) as [data|].
  - destruct (arrayElements data) as [entries|].
    + intros H. apply andThen_inv in H as (e1 & xs & n1 & e2 & Hxs & H & ->).
      cbn in H. injection H as <- <- <-. now apply mapEntries_counter in Hxs.
    + cbn. intros [= <- <- <-]. cbn. lia.
  - cbn. intros [= <- <- <-]. cbn. lia.
Qed.

Lemma flatMapFiles_counter (destinationFiles : list File) :
  forall n evs out n',
    flatMapFiles Json JSON_parse arrayElements isObject JSON_stringify uuid
      destinationFiles n = (evs, Ok (out, n')) ->
    n' = n + length out.
Proof.
  induction destinationFiles as [|f rest IH]; intros n evs out n'.
  - cbn. intros [= <- <- <-]. cbn. lia.
  - cbn [flatMapFiles]. intros H.
    apply andThen_inv in H as (e1 & xs & n1 & e2 & Hxs & H & ->).
    apply andThen_inv in H as (e3 & ys & n2 & e4 & Hys & H & ->).
    cbn in H. injection H as <- <- <-.
    apply splitFile_counter in Hxs. apply IH in Hys.
    rewrite length_app. lia.
Qed.

(** X21: when the script returns, it answers Skipped with no file, having
    drawn no identifier, or Success with at least one file, having drawn
    one identifier per file; its last log entry says which, with the number
    of files. *)
Theorem script_returns (destinationFiles : list File) (n : nat)
    (evs : list Entry) (r : Returned) (n' : nat) :
  script Json JSON_parse arrayElements isObject JSON_stringify uuid
    destinationFiles n = (evs, Ok (r, n')) ->
  (r = Skipped [] /\ n' = n
   /\ last evs = Some (Info "No valid array files found to split. Returning skipped."))
  \/ (exists files,
        r = Success files /\ files <> [] /\ n' = n + length files
        /\ last evs
           = Some (Info ("Split into " +:+ showNat (length files) +:+ " files."))).
Proof.
  unfold script. intros H.
  apply andThen_inv in H as (e1 & out & n1 & e2 & Hout & H & ->).
  apply flatMapFiles_counter in Hout.
  destruct out as [|x out]; cbn in H; injection H as <- <- <-.
  - left. cbn in Hout. repeat split; [lia | apply last_snoc].
  - right. eexists. split; [reflexivity|]. split; [discriminate|].
    split; [exact Hout | apply last_snoc].
Qed.

Lemma mapEntries_nameless (f : File) (data : list Json) :
  file_name f = None ->
  existsb isObject data = true ->
  forall idx n,
    exists evs,
      mapEntries Json isObject JSON_stringify uuid f idx data n
      = (evs, Throw "Cannot read properties of undefined (reading 'lastIndexOf')").
Proof.
  intros Hname. induction data as [|obj rest IH]; intros Hex idx n; [discriminate|].
  cbn [existsb] in Hex. cbn [mapEntries]. unfold splitEntry.
  destruct (isObject obj) eqn:Hobj; cbn [negb].
  - rewrite Hname. eexists. apply andThen_throw. reflexivity.
  - cbn [orb] in Hex. destruct (IH Hex (S idx) n) as (evs & Hrest).
    erewrite andThen_ok by (unfold andThen, log, unit_; reflexivity).
    erewrite andThen_throw by exact Hrest. cbn [fst snd]. eauto.
Qed.

(** X22: a file without name whose root array holds an object makes the
    script throw, wherever the file is in the batch, when the files before
    it are split without exception: nothing is returned for the batch. *)
Theorem nameless_file_throws (f : File) (data : Json) (entries : list Json)
    (before after : list File) (n : nat)
    (evs0 : list Entry) (out0 : list NewFile) (n0 : nat) :
  file_name f = None ->
  JSON_parse (body f) = Some data ->
  arrayElements data = Some entries ->
  existsb isObject entries = true ->
  flatMapFiles Json JSON_parse arrayElements isObject JSON_stringify uuid before n
  = (evs0, Ok (out0, n0)) ->
  exists evs,
    script Json JSON_parse arrayElements isObject JSON_stringify uuid
      (before ++ f :: after) n
    = (evs, Throw "Cannot read properties of undefined (reading 'lastIndexOf')").
Proof.
  intros Hname Hparse Harr Hex Hbefore.
  assert (exists evs,
            flatMapFiles Json JSON_parse arrayElements isObject JSON_stringify uuid
              (before ++ f :: after) n
            = (evs, Throw "Cannot read properties of undefined (reading 'lastIndexOf')"))
    as (evs & Hthrow).
  { revert n evs0 out0 n0 Hbefore.
    induction before as [|g before IH]; intros n evs0 out0 n0 Hbefore.
    - cbn [app flatMapFiles].
      destruct (mapEntries_nameless f entries Hname Hex 0 n) as (evs & Hm).
      eexists. apply andThen_throw. unfold splitFile. rewrite Hparse, Harr.
      apply andThen_throw. exact Hm.
    - cbn [app flatMapFiles] in Hbefore |- *.
      apply andThen_inv in Hbefore as (e1 & xs & n1 & e2 & Hxs & H & ->).
      apply andThen_inv in H as (e3 & ys & n2 & e4 & Hys & _ & ->).
      destruct (IH _ _ _ _ Hys) as (evs & Hrest).
      erewrite andThen_ok by exact Hxs.
      erewrite andThen_throw by exact Hrest. cbn [fst snd]. eauto. }
  exists evs. unfold script. now apply andThen_throw.
Qed.

End HostFacts.

(** X20 at the sample array: the number between the two objects is skipped
    and leaves a gap in the names, not in the identifiers. *)
Lemma files_of_one_array_witness :
  file_name (fileOf "orders.json" "[{},1,{}]") = Some "orders.json"
  /\ exists evs,
       splitFile SampleJson sampleParse sampleElements sampleIsObject sampleStringify
         sampleUuid (fileOf "orders.json" "[{},1,{}]") 0
       = (evs,
          Ok ([ mkNewFile "id-0" "file" "orders_1.json" "json" "application/json" "{}";
                mkNewFile "id-1" "file" "orders_3.json" "json" "application/json" "{}" ],
              2)).
Proof.
  split; [reflexivity|].
  destruct (files_of_one_array SampleJson sampleParse sampleElements sampleIsObject
              sampleStringify sampleUuid (fileOf "orders.json" "[{},1,{}]")
              "orders.json" 0 eq_refl) as (evs & Hrun).
  exists evs. rewrite Hrun. vm_compute. reflexivity.
Defined.

(** X21 at the sample array and at a text that is not JSON. *)
Lemma script_returns_witness :
  (exists evs files,
     sampleScript [fileOf "orders.json" "[{},1,{}]"] 0 = (evs, Ok (Success files, 2))
     /\ length files = 2)
  /\ (exists evs, sampleScript [fileOf "notes.txt" "hello"] 0 = (evs, Ok (Skipped [], 0))).
Proof.
  split.
  - destruct (sampleScript [fileOf "orders.json" "[{},1,{}]"] 0) as [evs [[r n']|msg]] eqn:Hrun;
      [|vm_compute in Hrun; discriminate].
    destruct (script_returns _ _ _ _ _ _ _ _ _ _ _ Hrun)
      as [(Hr & _) | (files & Hr & _ & Hn & _)].
    + subst r. vm_compute in Hrun. discriminate.
    + subst r. assert (n' = 2) as -> by (vm_compute in Hrun; congruence).
      exists evs, files. split; [reflexivity | lia].
  - destruct (sampleScript [fileOf "notes.txt" "hello"] 0) as [evs [[r n']|msg]] eqn:Hrun;
      [|vm_compute in Hrun; discriminate].
    destruct (script_returns _ _ _ _ _ _ _ _ _ _ _ Hrun)
      as [(Hr & Hn & _) | (files & Hr & _ & _ & _)].
    + subst r n'. eauto.
    + subst r. vm_compute in Hrun. discriminate.
Defined.

(** X22 at the sample array in a file without name, after a named one. *)
Lemma nameless_file_throws_witness :
  file_name (mkFile None (Some "[{},1,{}]")) = None
  /\ exists evs,
       sampleScript [fileOf "orders.json" "[{},1,{}]"; mkFile None (Some "[{},1,{}]")] 0
       = (evs, Throw "Cannot read properties of undefined (reading 'lastIndexOf')").
Proof.
  split; [reflexivity|].
  destruct (flatMapFiles SampleJson sampleParse sampleElements sampleIsObject
              sampleStringify sampleUuid [fileOf "orders.json" "[{},1,{}]"] 0)
    as [evs0 [[out0 n0]|msg]] eqn:Hbefore; [|vm_compute in Hbefore; discriminate].
  exact (nameless_file_throws SampleJson sampleParse sampleElements sampleIsObject
           sampleStringify sampleUuid (mkFile None (Some "[{},1,{}]")) _ _
           [fileOf "orders.json" "[{},1,{}]"] [] 0 evs0 out0 n0
           eq_refl eq_refl eq_refl eq_refl Hbefore).
Defined.

End ArrayToFilesFacts.

(** ** The walker's variables *)

Ltac frame_done :=
  repeat split; intros;
  first [ lia | congruence
        | match goal with H : _ \/ _ |- _ => destruct H; congruence end ].

(** X23: the two group-level variables and the open transaction do not
    interfere.  Only an AK9 segment can change the overall status and only
    an AK1 segment the acknowledged group number; AK1 and AK9 segments leave
    the open transaction and its segment errors as they are; no segment
    removes an object from the store. *)
Theorem walker_frame (sourceFile : File) (elemSep : option string)
    (st : WalkState) (seg : string) :
  exists evs st',
    step sourceFile elemSep st seg = (evs, Ok st')
    /\ (Js.startsWith "AK9" seg = false -> overallStatus st' = overallStatus st)
    /\ (Js.startsWith "AK1" seg = false -> ak102 st' = ak102 st)
    /\ (Js.startsWith "AK1" seg = true \/ Js.startsWith "AK9" seg = true ->
        currentDocType st' = currentDocType st
        /\ currentControlNumber st' = currentControlNumber st
        /\ currentSegmentErrors st' = currentSegmentErrors st
        /\ currentSegment st' = currentSegment st
        /\ heap st' = heap st)
    /\ length (heap st) <= length (heap st').
Proof.
  destruct (Js.startsWith "AK1" seg) eqn:H1.
  { rewrite (step_AK1 _ _ _ _ H1). do 2 eexists. split; [reflexivity|].
    cbn. frame_done. }
  destruct (Js.startsWith "AK2" seg) eqn:H2.
  { rewrite (step_AK2 _ _ _ _ H2), (startsWith_tag_excl "A" "K" "2" "9" seg ltac:(discriminate) H2).
    do 2 eexists. split; [reflexivity|]. cbn. frame_done. }
  destruct (Js.startsWith "AK3" seg) eqn:H3.
  { rewrite (step_AK3 _ _ _ _ H3), (startsWith_tag_excl "A" "K" "3" "9" seg ltac:(discriminate) H3).
    do 2 eexists. split; [reflexivity|]. cbn. rewrite length_app. frame_done. }
  destruct (Js.startsWith "AK4" seg) eqn:H4.
  { rewrite (step_AK4 _ _ _ _ H4), (startsWith_tag_excl "A" "K" "4" "9" seg ltac:(discriminate) H4).
    destruct (currentSegment st) as [r|]; do 2 eexists; (split; [reflexivity|]);
      cbn; rewrite ?pushElementError_length; frame_done. }
  destruct (Js.startsWith "AK5" seg) eqn:H5.
  { rewrite (step_AK5 _ _ _ _ H5), (startsWith_tag_excl "A" "K" "5" "9" seg ltac:(discriminate) H5).
    unfold flushTransaction. destruct (currentDocType st).
    - do 2 eexists. split; [reflexivity|]. frame_done.
    - destruct (String.eqb _ "R"); do 2 eexists; (split; [reflexivity|]);
        cbn; frame_done. }
  destruct (Js.startsWith "AK9" seg) eqn:H9.
  { destruct (step_AK9 sourceFile elemSep st seg H9) as (evs & ->).
    do 2 eexists. split; [reflexivity|].
    destruct (negb _ && _); cbn; frame_done. }
  rewrite step_other by (unfold isAckSegment; now rewrite H1, H2, H3, H4, H5, H9).
  do 2 eexists. split; [reflexivity|]. frame_done.
Qed.

(** ** More properties at sample inputs *)

(** X5 at the segment error of the rejected acknowledgment. *)
Lemma AK3_appends_segment_error_witness :
  walk bodilessFile (Some "*") ["AK1*PO*55"; "AK2*850*0007"] initialState
  = ([PublishDataTags [("997 Acked Group Control Number", "55")]], Ok groupState)
  /\ Js.startsWith "AK3" "AK3*N1*4*L1*1" = true
  /\ step bodilessFile (Some "*") groupState "AK3*N1*4*L1*1" = ([], Ok segmentState)
  /\ accumulated segmentState
     = accumulated groupState
       ++ [mkSegmentError "N1" "4" "L1" (VStr "Unrecognized segment ID") []].
Proof.
  assert (walk bodilessFile (Some "*") ["AK1*PO*55"; "AK2*850*0007"] initialState
          = ([PublishDataTags [("997 Acked Group Control Number", "55")]], Ok groupState))
    as Hwalk by (vm_compute; reflexivity).
  destruct (AK3_appends_segment_error bodilessFile (Some "*") _ _ groupState
              "AK3*N1*4*L1*1" Hwalk eq_refl) as (st' & r & Hstep & Hacc & _).
  assert (step bodilessFile (Some "*") groupState "AK3*N1*4*L1*1" = ([], Ok segmentState))
    as Hstep' by (vm_compute; reflexivity).
  rewrite Hstep' in Hstep. injection Hstep as <-.
  split; [exact Hwalk|]. split; [reflexivity|]. split; [exact Hstep'|]. exact Hacc.
Defined.

(** X6 at the element error of the rejected acknowledgment. *)
Lemma AK4_attaches_to_last_segment_error_witness :
  walk bodilessFile (Some "*") ["AK1*PO*55"; "AK2*850*0007"; "AK3*N1*4*L1*1"] initialState
  = ([PublishDataTags [("997 Acked Group Control Number", "55")]], Ok segmentState)
  /\ Js.startsWith "AK4" "AK4*2*66*1*XX" = true
  /\ currentSegment segmentState = Some 0
  /\ step bodilessFile (Some "*") segmentState "AK4*2*66*1*XX" = ([], Ok openState)
  /\ exists earlier cur,
       accumulated segmentState = earlier ++ [cur]
       /\ accumulated openState
          = earlier ++ [withElementError cur (elementErrorOf (Some "*") "AK4*2*66*1*XX")].
Proof.
  assert (walk bodilessFile (Some "*") ["AK1*PO*55"; "AK2*850*0007"; "AK3*N1*4*L1*1"]
            initialState
          = ([PublishDataTags [("997 Acked Group Control Number", "55")]], Ok segmentState))
    as Hwalk by (vm_compute; reflexivity).
  destruct (AK4_attaches_to_last_segment_error bodilessFile (Some "*") _ _ segmentState
              "AK4*2*66*1*XX" 0 Hwalk eq_refl eq_refl)
    as (st' & earlier & cur & Hstep & Hacc & Hacc' & _).
  assert (step bodilessFile (Some "*") segmentState "AK4*2*66*1*XX" = ([], Ok openState))
    as Hstep' by (vm_compute; reflexivity).
  rewrite Hstep' in Hstep. injection Hstep as <-.
  split; [exact Hwalk|]. split; [reflexivity|]. split; [reflexivity|].
  split; [exact Hstep'|]. eauto.
Defined.

(** X7 at a second transaction opened while the sample one is still open. *)
Lemma AK2_discards_open_transaction_witness :
  Js.startsWith "AK2" "AK2*810*0008" = true
  /\ Js.startsWith "AK5" "AK5*A" = true
  /\ walk bodilessFile (Some "*") ["AK2*810*0008"; "AK5*A"] openState
     = ([LogInfo "Transaction 810 #0008: Accepted"], Ok (resetTransaction openState)).
Proof.
  split; [reflexivity|]. split; [reflexivity|].
  exact (AK2_discards_open_transaction bodilessFile (Some "*") openState
           "AK2*810*0008" "AK5*A" eq_refl eq_refl ltac:(vm_compute; discriminate)).
Defined.
